(** * Evidence routing and the three-stage verification pipeline

    A shallow embedding of [fact_check.py] (class [LegalFactCheckService]),
    together with the parts of [models.py], [fact_checking_clients.py] and
    [legal_claim_extractor.py] it relies on.

    Python values that come back from the network or from the language-model
    oracles are JSON documents; they are modelled by [pyval].  Exceptions are
    modelled by the error monad [exc]; an [except Exception] handler is
    [try_except].  Python [str] is modelled by [string], one character per
    code point, which covers the strings whose code points are below 256;
    [lower] implements [str.lower] on them.  The
    coroutines are modelled run to completion, with the events they emit
    (calls to a client, error lines) kept beside their result. *)

From Stdlib Require Import ZArith String Ascii List Bool Lia Sorted Floats.
Import ListNotations.
Set Warnings "-register-all".
Local Open Scope string_scope.
Local Open Scope Z_scope.

(* ===================================================================== *)
(** ** Python values, exceptions and the built-in operations used         *)
(* ===================================================================== *)

Module Py.

(** Exceptions raised by the modelled code.  All of them derive from
    Python's [Exception], so every [except Exception] handler catches them. *)
Inductive exn : Type :=
| ValueError (msg : string)
| RuntimeError (msg : string)
| AttributeError
| TypeError
| IndexError
| KeyError
| ValidationError
| JSONDecodeError
| ClientError (msg : string)
| OracleError (msg : string).

Inductive exc (A : Type) : Type :=
| Ok (a : A)
| Raise (e : exn).
Arguments Ok {A} a.
Arguments Raise {A} e.

Definition bind {A B : Type} (c : exc A) (k : A -> exc B) : exc B :=
  match c with
  | Ok a => k a
  | Raise e => Raise e
  end.

(** [try: body / except Exception as e: handler e]. *)
Definition try_except {A : Type} (body : exc A) (handler : exn -> A) : A :=
  match body with
  | Ok a => a
  | Raise e => handler e
  end.

(** Sequential evaluation of a list of fallible computations, stopping at
    the first exception (a [for] loop that appends to a list, or a list
    comprehension). *)
Fixpoint mapM {A B : Type} (f : A -> exc B) (l : list A) : exc (list B) :=
  match l with
  | [] => Ok []
  | x :: xs =>
      bind (f x) (fun y => bind (mapM f xs) (fun ys => Ok (y :: ys)))
  end.

(** JSON documents as Python sees them after [json.loads] /
    [response.json()].  A [dict] keeps its items as an association list;
    look-up takes the first binding of a key. *)
Inductive pyval : Type :=
| PNone
| PBool (b : bool)
| PInt (z : Z)
| PFloat (f : float)
| PStr (s : string)
| PList (l : list pyval)
| PDict (d : list (string * pyval)).

Fixpoint dict_lookup (k : string) (d : list (string * pyval)) : option pyval :=
  match d with
  | [] => None
  | (k', v) :: d' => if String.eqb k k' then Some v else dict_lookup k d'
  end.

(** [v.get(k, default)]: only a [dict] has the method. *)
Definition get (v : pyval) (k : string) (default : pyval) : exc pyval :=
  match v with
  | PDict d =>
      Ok (match dict_lookup k d with Some x => x | None => default end)
  | _ => Raise AttributeError
  end.

(** [v.get(k)], whose default is [None]. *)
Definition get1 (v : pyval) (k : string) : exc pyval := get v k PNone.

(** Truth value of an object, as used by [or], [not] and [if]. *)
Definition truthy (v : pyval) : bool :=
  match v with
  | PNone => false
  | PBool b => b
  | PInt z => negb (z =? 0)
  | PFloat f => negb (PrimFloat.eqb f 0%float)
  | PStr s => negb (String.eqb s "")
  | PList l => match l with [] => false | _ => true end
  | PDict d => match d with [] => false | _ => true end
  end.

(** [a or b]. *)
Definition or_ (a b : pyval) : pyval := if truthy a then a else b.

(** [str.lower] on one character.  Below code point 256 the capital
    letters are [A]-[Z] (65-90) and, in the Latin-1 range, the letters at
    192-214 and 216-222; each goes to the small letter 32 places up, and
    every other character is left as it is. *)
Definition lower_ascii (c : ascii) : ascii :=
  let n := N_of_ascii c in
  if ((N.leb 65 n && N.leb n 90)
      || (N.leb 192 n && N.leb n 214)
      || (N.leb 216 n && N.leb n 222))%bool
  then ascii_of_N (n + 32) else c.

Fixpoint lower (s : string) : string :=
  match s with
  | EmptyString => EmptyString
  | String c s' => String (lower_ascii c) (lower s')
  end.

(** [v.lower()] on an arbitrary object: only a [str] has the method. *)
Definition lower_method (v : pyval) : exc pyval :=
  match v with
  | PStr s => Ok (PStr (lower s))
  | _ => Raise AttributeError
  end.

(** [v[:n]]. *)
Definition slice_to (n : nat) (v : pyval) : exc pyval :=
  match v with
  | PList l => Ok (PList (firstn n l))
  | PStr s => Ok (PStr (substring 0 n s))
  | _ => Raise TypeError
  end.

(** [v[0]]. *)
Definition index0 (v : pyval) : exc pyval :=
  match v with
  | PList (x :: _) => Ok x
  | PList [] => Raise IndexError
  | PStr (String c _) => Ok (PStr (String c EmptyString))
  | PStr EmptyString => Raise IndexError
  | PDict _ => Raise KeyError
  | _ => Raise TypeError
  end.

Fixpoint chars (s : string) : list pyval :=
  match s with
  | EmptyString => []
  | String c s' => PStr (String c EmptyString) :: chars s'
  end.

(** The items a [for x in v] loop visits. *)
Definition iter (v : pyval) : exc (list pyval) :=
  match v with
  | PList l => Ok l
  | PStr s => Ok (chars s)
  | PDict d => Ok (map (fun kv => PStr (fst kv)) d)
  | _ => Raise TypeError
  end.

(** The objects that are Python lists. *)
Definition is_list (v : pyval) : bool :=
  match v with
  | PList _ => true
  | _ => false
  end.

(** [not s] for a [str]. *)
Definition str_empty (s : string) : bool := String.eqb s "".

(** [s in [a, b, ...]] for strings. *)
Definition str_in (s : string) (l : list string) : bool :=
  existsb (String.eqb s) l.

End Py.

Import Py.

Notation "x <- c ;; k" := (bind c (fun x => k))
  (at level 61, c at next level, right associativity).

(* ===================================================================== *)
(** ** The world outside the program                                      *)
(* ===================================================================== *)

(** [pydantic] and the remote services are not part of the repository.
    A field of type [int] accepts an [int], a field of type [float] a
    [float]; what the library does with an input of another type (its lax
    conversions) is left to [lax_int] and [lax_float]. *)
Module Pydantic.

Record lax : Type := {
  lax_int : pyval -> option Z;
  lax_float : pyval -> option float
}.

(** The conversions that accept nothing beyond the exact type. *)
Definition strict : lax :=
  {| lax_int := fun _ => None; lax_float := fun _ => None |}.

Definition validate_int (L : lax) (v : pyval) : exc Z :=
  match v with
  | PInt z => Ok z
  | _ => match lax_int L v with
         | Some z => Ok z
         | None => Raise ValidationError
         end
  end.

Definition validate_float (L : lax) (v : pyval) : exc float :=
  match v with
  | PFloat f => Ok f
  | _ => match lax_float L v with
         | Some f => Ok f
         | None => Raise ValidationError
         end
  end.

Definition validate_str (v : pyval) : exc string :=
  match v with
  | PStr s => Ok s
  | _ => Raise ValidationError
  end.

(** [Optional[str]]. *)
Definition validate_opt_str (v : pyval) : exc (option string) :=
  match v with
  | PNone => Ok None
  | PStr s => Ok (Some s)
  | _ => Raise ValidationError
  end.

(** [Dict[str, int]]; the keys of a JSON object are strings already. *)
Definition validate_dict_str_int (L : lax) (v : pyval)
  : exc (list (string * Z)) :=
  match v with
  | PDict d =>
      mapM (fun kv => z <- validate_int L (snd kv) ;; Ok (fst kv, z)) d
  | _ => Raise ValidationError
  end.

End Pydantic.

(** Everything the service reaches over the network, plus the clock.
    - [http_get url params headers] is one [session.get] followed by
      [raise_for_status] and [response.json()];
    - [extraction_oracle content] and [judge_oracle payload] are one call to
      the language model followed by [json.loads(response.text)]: [Raise]
      when the call fails or its text is not JSON;
    - [utcnow] is the reading of [datetime.now(timezone.utc)];
    - [format v] is the text an f-string inserts for [v]. *)
Record World : Type := {
  http_get : string -> list (string * pyval) -> list (string * string)
             -> exc pyval;
  extraction_oracle : string -> exc pyval;
  judge_oracle : pyval -> exc pyval;
  utcnow : Z;
  coerce : Pydantic.lax;
  format : pyval -> string
}.

(* ===================================================================== *)
(** ** models.py                                                          *)
(* ===================================================================== *)

Module LegalClaim.
Record t : Type := {
  sentence_id : Z;
  sentence_text : string;
  claim_type : string;
  search_query : string;
  requires_verification : bool;
  confidence : float;
  location : string
}.
End LegalClaim.

(** The four result fields are declared [List[Dict[str, Any]]], but the
    gatherer fills them by plain attribute assignment, which the model class
    does not validate: they hold whatever object was assigned. *)
Module VerificationEvidence.
Record t : Type := {
  claim_id : Z;
  google_fact_checks : pyval;
  news_results : pyval;
  academic_results : pyval;
  indian_kanoon_results : pyval
}.

(** [VerificationEvidence(claim_id=i)]: every list field takes its
    default. *)
Definition make (i : Z) : t :=
  {| claim_id := i;
     google_fact_checks := PList [];
     news_results := PList [];
     academic_results := PList [];
     indian_kanoon_results := PList [] |}.
End VerificationEvidence.

Module LegalFactCheck.
Record t : Type := {
  sentence_id : Z;
  sentence : string;
  claim : string;
  verdict : string;
  source : string;
  source_type : string;
  corrected_sentence : option string;
  checked_on : Z;
  legal_authority_level : string;
  citation_provided : option string
}.

(** The constructor call, with the validation of every keyword argument. *)
Definition make (L : Pydantic.lax)
    (a_sentence_id a_sentence a_claim a_verdict a_source a_source_type : pyval)
    (a_checked_on : Z)
    (a_legal_authority_level a_citation_provided a_corrected_sentence : pyval)
  : exc t :=
  i <- Pydantic.validate_int L a_sentence_id ;;
  s <- Pydantic.validate_str a_sentence ;;
  c <- Pydantic.validate_str a_claim ;;
  v <- Pydantic.validate_str a_verdict ;;
  src <- Pydantic.validate_str a_source ;;
  st <- Pydantic.validate_str a_source_type ;;
  lal <- Pydantic.validate_str a_legal_authority_level ;;
  cp <- Pydantic.validate_opt_str a_citation_provided ;;
  cs <- Pydantic.validate_opt_str a_corrected_sentence ;;
  Ok {| sentence_id := i; sentence := s; claim := c; verdict := v;
        source := src; source_type := st; corrected_sentence := cs;
        checked_on := a_checked_on; legal_authority_level := lal;
        citation_provided := cp |}.
End LegalFactCheck.

Module LegalVerificationReport.
Record t : Type := {
  blog_id : string;
  total_claims_extracted : Z;
  verifiable_claims : Z;
  verified_claims : Z;
  accuracy_score : float;
  claims_breakdown : list (string * Z);
  fact_checks : list LegalFactCheck.t;
  recommendations : list string;
  timestamp : Z
}.

Definition make (L : Pydantic.lax) (a_blog_id : string)
    (a_total a_verifiable a_verified a_accuracy a_breakdown : pyval)
    (a_fact_checks : list LegalFactCheck.t) (a_recommendations : list string)
    (a_timestamp : Z) : exc t :=
  tot <- Pydantic.validate_int L a_total ;;
  vf <- Pydantic.validate_int L a_verifiable ;;
  vd <- Pydantic.validate_int L a_verified ;;
  acc <- Pydantic.validate_float L a_accuracy ;;
  bd <- Pydantic.validate_dict_str_int L a_breakdown ;;
  Ok {| blog_id := a_blog_id; total_claims_extracted := tot;
        verifiable_claims := vf; verified_claims := vd;
        accuracy_score := acc; claims_breakdown := bd;
        fact_checks := a_fact_checks; recommendations := a_recommendations;
        timestamp := a_timestamp |}.
End LegalVerificationReport.

(* ===================================================================== *)
(** ** fact_checking_clients.py                                           *)
(* ===================================================================== *)

Module Clients.

(** [session] tells whether the client's HTTP session is open, that is,
    whether the client is inside its [async with] block. *)
Record BaseAPIClient : Type := {
  api_key : string;
  base_url : string;
  session : bool
}.

Definition init (key url : string) : exc BaseAPIClient :=
  if str_empty key then Raise (ValueError "API key cannot be empty.")
  else if (str_empty url || negb (String.prefix "http" url))%bool
  then Raise (ValueError "Base URL must be a valid HTTP(S) URL.")
  else Ok {| api_key := key; base_url := url; session := false |}.

Definition aenter (c : BaseAPIClient) : BaseAPIClient :=
  {| api_key := api_key c; base_url := base_url c; session := true |}.

Definition aexit (c : BaseAPIClient) : BaseAPIClient :=
  {| api_key := api_key c; base_url := base_url c; session := false |}.

(** Both handlers of the method log and re-raise, so the outcome is that of
    the request itself. *)
Definition _make_request (w : World) (c : BaseAPIClient) (endpoint : string)
    (params : list (string * pyval)) (headers : option (list (string * string)))
  : exc pyval :=
  if negb (session c)
  then Raise (RuntimeError "Client session is not initialized. Please use 'async with' context manager.")
  else
    let request_headers := match headers with Some h => h | None => [] end in
    let url := if str_empty endpoint then base_url c
               else base_url c ++ "/" ++ endpoint in
    http_get w url params request_headers.

Definition GoogleFactCheckClient (key : string) : exc BaseAPIClient :=
  init key "https://factchecktools.googleapis.com/v1alpha1".

Definition GoogleFactCheckClient_search (w : World) (c : BaseAPIClient)
    (query language_code : string) : exc pyval :=
  let params := [("query", PStr query); ("key", PStr (api_key c));
                 ("languageCode", PStr language_code)] in
  _make_request w c "claims:search" params None.

Record CustomSearch : Type := {
  cs_base : BaseAPIClient;
  cse_id : string
}.

Definition GoogleCustomSearchClient (key cse : string) : exc CustomSearch :=
  b <- init key "https://www.googleapis.com/customsearch/v1" ;;
  Ok {| cs_base := b; cse_id := cse |}.

Definition GoogleCustomSearchClient_search (w : World) (c : CustomSearch)
    (query : string) (num_results : Z) : exc pyval :=
  let params := [("q", PStr query); ("key", PStr (api_key (cs_base c)));
                 ("cx", PStr (cse_id c)); ("num", PInt num_results);
                 ("lr", PStr "lang_en")] in
  _make_request w (cs_base c) "" params None.

Definition SemanticScholarClient (key : string) : exc BaseAPIClient :=
  init key "https://api.semanticscholar.org/graph/v1".

Definition SemanticScholarClient_search (w : World) (c : BaseAPIClient)
    (query : string) (limit : Z) : exc pyval :=
  let params := [("query", PStr query); ("limit", PInt limit)] in
  let headers := [("x-api-key", api_key c)] in
  _make_request w c "paper/search" params (Some headers).

Definition IndianKanoonClient (key : string) : exc BaseAPIClient :=
  init key "https://api.indiankanoon.org".

Definition IndianKanoonClient_search (w : World) (c : BaseAPIClient)
    (query : string) (pagenum : Z) : exc pyval :=
  if str_empty query then Raise (ValueError "Search query cannot be empty.")
  else
    let params := [("formInput", PStr query); ("pagenum", PInt pagenum)] in
    let headers := [("Authorization", "Token " ++ api_key c);
                    ("Accept", "application/json")] in
    _make_request w c "search/" params (Some headers).

End Clients.

(* ===================================================================== *)
(** ** legal_claim_extractor.py                                           *)
(* ===================================================================== *)

Module LegalClaimExtractor.

(** One iteration of the loop that turns the oracle's items into
    [LegalClaim] records. *)
Definition claim_of_item (w : World) (item : pyval) : exc LegalClaim.t :=
  a_id <- get item "sentence_id" (PInt 0) ;;
  a_text <- get item "sentence_text" (PStr "") ;;
  a_type <- get item "claim_type" (PStr "legal_fact") ;;
  a_text' <- get1 item "sentence_text" ;;
  a_query <- get item "search_query" a_text' ;;
  a_loc <- get1 item "sentence_id" ;;
  i <- Pydantic.validate_int (coerce w) a_id ;;
  t <- Pydantic.validate_str a_text ;;
  ty <- Pydantic.validate_str a_type ;;
  q <- Pydantic.validate_str a_query ;;
  Ok {| LegalClaim.sentence_id := i;
        LegalClaim.sentence_text := t;
        LegalClaim.claim_type := ty;
        LegalClaim.search_query := q;
        LegalClaim.requires_verification := true;
        LegalClaim.confidence := 1%float;
        LegalClaim.location := "id_" ++ format w a_loc |}.

(** Any exception of the [try] block makes the method return the empty
    list. *)
Definition extract_claims (w : World) (content : string)
  : list LegalClaim.t :=
  try_except
    (data <- extraction_oracle w content ;;
     claims_list <- get data "claims" (PList []) ;;
     items <- iter claims_list ;;
     mapM (claim_of_item w) items)
    (fun _ => []).

End LegalClaimExtractor.

(* ===================================================================== *)
(** ** fact_check.py                                                      *)
(* ===================================================================== *)

(** The four evidence sources. *)
Inductive Source : Type :=
| LegalDatabase       (* Indian Kanoon *)
| GeneralWeb          (* Google Custom Search *)
| FactCheckDatabase   (* Google Fact Check *)
| AcademicIndex.      (* Semantic Scholar *)

Definition Source_eqb (a b : Source) : bool :=
  match a, b with
  | LegalDatabase, LegalDatabase
  | GeneralWeb, GeneralWeb
  | FactCheckDatabase, FactCheckDatabase
  | AcademicIndex, AcademicIndex => true
  | _, _ => false
  end.

(** What one unit of work does that can be seen from outside: the [search]
    calls it makes on a client and the error lines it logs. *)
Inductive event : Type :=
| Query (s : Source) (q : string)
| ErrorLog (s : Source) (claim_id : Z).

(** A coroutine, run to completion: the events it emitted and its result. *)
Definition task (A : Type) : Type := (list event * exc A)%type.

(** [asyncio.sleep(0, result=r)]. *)
Definition sleep0 {A : Type} (r : A) : task A := ([], Ok r).

(** [await asyncio.gather] on the unpacked task list: every task runs; the results come back
    in the order of the argument list, whatever the order of completion, and
    the first exception in that order, if any, is raised.  The events of
    the tasks are listed task after task; only their membership is
    meaningful. *)
Definition asyncio_gather {A : Type} (tasks : list (task A)) : task (list A) :=
  (concat (map fst tasks), mapM (fun r => r) (map snd tasks)).

(** The sources on which a task called [search]. *)
Fixpoint queried (evs : list event) : list Source :=
  match evs with
  | [] => []
  | Query s _ :: evs' => s :: queried evs'
  | ErrorLog _ _ :: evs' => queried evs'
  end.

Module LegalFactCheckService.

Record t : Type := {
  fact_check_client : Clients.BaseAPIClient;
  news_client : Clients.CustomSearch;
  indian_kanoon_client : Clients.BaseAPIClient;
  academic_client : option Clients.BaseAPIClient;
  llm_model_name : string
}.

(** [__init__].  The language-model handles it also builds live in
    [World]. *)
Definition init (google_api_key cse_id gemini_api_key indian_kanoon_key : string)
    (academic_key : option string) (llm_model : string) : exc t :=
  if str_empty google_api_key
  then Raise (ValueError "Google API key is required.")
  else if str_empty cse_id
  then Raise (ValueError "CSE ID is required.")
  else if str_empty gemini_api_key
  then Raise (ValueError "Gemini API key is required.")
  else if str_empty indian_kanoon_key
  then Raise (ValueError "Indian Kanoon API key is required.")
  else
    fc <- Clients.GoogleFactCheckClient google_api_key ;;
    news <- Clients.GoogleCustomSearchClient google_api_key cse_id ;;
    ik <- Clients.IndianKanoonClient indian_kanoon_key ;;
    acad <- match academic_key with
            | Some k =>
                if str_empty k then Ok None
                else (c <- Clients.SemanticScholarClient k ;; Ok (Some c))
            | None => Ok None
            end ;;
    Ok {| fact_check_client := fc; news_client := news;
          indian_kanoon_client := ik; academic_client := acad;
          llm_model_name := llm_model |}.

(** The [AsyncExitStack] block of [verify_legal_blog]: every client that
    exists is entered. *)
Definition enter_clients (self : t) : t :=
  {| fact_check_client := Clients.aenter (fact_check_client self);
     news_client :=
       {| Clients.cs_base := Clients.aenter (Clients.cs_base (news_client self));
          Clients.cse_id := Clients.cse_id (news_client self) |};
     indian_kanoon_client := Clients.aenter (indian_kanoon_client self);
     academic_client := option_map Clients.aenter (academic_client self);
     llm_model_name := llm_model_name self |}.

(** The shape shared by the four helpers: [search] on a client, [res.get]
    on the answer, and an [except Exception] handler that logs and returns
    the empty list. *)
Definition guarded (s : Source) (query : string) (claim_id : Z)
    (body : exc pyval) : task pyval :=
  match body with
  | Ok v => ([Query s query], Ok v)
  | Raise _ => ([Query s query; ErrorLog s claim_id], Ok (PList []))
  end.

Section Gather.

Variable w : World.
Variable self : t.
Variable claim : LegalClaim.t.

Let query : string := LegalClaim.search_query claim.
Let cid : Z := LegalClaim.sentence_id claim.

Definition fetch_fact : task pyval :=
  guarded FactCheckDatabase query cid
    (res <- Clients.GoogleFactCheckClient_search w (fact_check_client self)
              query "en" ;;
     get res "claims" (PList [])).

Definition fetch_news : task pyval :=
  guarded GeneralWeb query cid
    (res <- Clients.GoogleCustomSearchClient_search w (news_client self)
              query 4 ;;
     get res "items" (PList [])).

Definition fetch_academic : task pyval :=
  match academic_client self with
  | None => ([], Ok (PList []))
  | Some c =>
      guarded AcademicIndex query cid
        (res <- Clients.SemanticScholarClient_search w c query 2 ;;
         get res "data" (PList []))
  end.

Definition fetch_kanoon : task pyval :=
  guarded LegalDatabase query cid
    (res <- Clients.IndianKanoonClient_search w (indian_kanoon_client self)
              query 0 ;;
     get res "docs" (PList [])).

(** The routing logic: the list of the four units of work. *)
Definition routing_tasks : list (task pyval) :=
  let claim_type := lower (LegalClaim.claim_type claim) in
  let tasks : list (task pyval) := [] in
  let tasks :=
    (tasks ++ [if str_in claim_type ["case_law"; "statute"; "legal_fact"]
               then fetch_kanoon else sleep0 (PList [])])%list in
  let tasks := (tasks ++ [fetch_news])%list in
  let tasks :=
    (tasks ++ [if str_in claim_type ["date_fact"; "general_fact"; "legal_fact"]
               then fetch_fact else sleep0 (PList [])])%list in
  let tasks :=
    (tasks ++ [if str_in claim_type ["case_law"; "statute"]
               then fetch_academic else sleep0 (PList [])])%list in
  tasks.

Definition _gather_evidence_for_claim : task VerificationEvidence.t :=
  let evidence := VerificationEvidence.make (LegalClaim.sentence_id claim) in
  let '(log, results) := asyncio_gather routing_tasks in
  (log,
   rs <- results ;;
   match rs with
   | [kanoon_res; news_res; fc_res; acad_res] =>
       Ok {| VerificationEvidence.claim_id :=
               VerificationEvidence.claim_id evidence;
             VerificationEvidence.google_fact_checks := fc_res;
             VerificationEvidence.news_results := news_res;
             VerificationEvidence.academic_results := acad_res;
             VerificationEvidence.indian_kanoon_results := kanoon_res |}
   | _ => Raise (ValueError "unpack")
   end).

End Gather.

(** [len(claims)]. *)
Definition len {A : Type} (l : list A) : Z := Z.of_nat (length l).

Definition _generate_empty_report (w : World) (blog_id : string) (count : Z)
  : LegalVerificationReport.t :=
  {| LegalVerificationReport.blog_id := blog_id;
     LegalVerificationReport.total_claims_extracted := count;
     LegalVerificationReport.verifiable_claims := count;
     LegalVerificationReport.verified_claims := 0;
     LegalVerificationReport.accuracy_score := 0%float;
     LegalVerificationReport.claims_breakdown := [];
     LegalVerificationReport.fact_checks := [];
     LegalVerificationReport.recommendations := ["Analysis failed."];
     LegalVerificationReport.timestamp := utcnow w |}.

(** *** The payload sent to the judge *)

Definition kanoon_entry (w : World) (x : pyval) : exc pyval :=
  title <- get1 x "title" ;;
  headline <- get1 x "headline" ;;
  doc_id <- get1 x "tid" ;;
  src <- get1 x "docsource" ;;
  tid <- get1 x "tid" ;;
  Ok (PDict [("title", title); ("headline", headline); ("doc_id", doc_id);
             ("source", src);
             ("url", PStr ("https://indiankanoon.org/doc/" ++ format w tid
                           ++ "/"))]).

Definition fact_check_entry (x : pyval) : exc pyval :=
  cr <- get x "claimReview" (PList [PDict []]) ;;
  r0 <- index0 cr ;;
  rating <- get1 r0 "textualRating" ;;
  cr' <- get x "claimReview" (PList [PDict []]) ;;
  r0' <- index0 cr' ;;
  url <- get1 r0' "url" ;;
  Ok (PDict [("verdict", rating); ("url", url)]).

Definition web_entry (x : pyval) : exc pyval :=
  title <- get1 x "title" ;;
  sn <- get x "snippet" (PStr "") ;;
  snippet <- slice_to 200 sn ;;
  link <- get1 x "link" ;;
  Ok (PDict [("title", title); ("snippet", snippet); ("link", link)]).

Definition academic_entry (x : pyval) : exc pyval :=
  title <- get1 x "title" ;;
  Ok (PDict [("title", title)]).

(** A list comprehension [[f x for x in v]]. *)
Definition comprehension (f : pyval -> exc pyval) (v : pyval) : exc pyval :=
  items <- iter v ;;
  out <- mapM f items ;;
  Ok (PList out).

Definition simplified_evidence (w : World) (ev : VerificationEvidence.t)
  : exc pyval :=
  top3 <- slice_to 3 (VerificationEvidence.indian_kanoon_results ev) ;;
  ik <- comprehension (kanoon_entry w) top3 ;;
  fc <- comprehension fact_check_entry
          (VerificationEvidence.google_fact_checks ev) ;;
  ws <- comprehension web_entry (VerificationEvidence.news_results ev) ;;
  ac <- comprehension academic_entry
          (VerificationEvidence.academic_results ev) ;;
  Ok (PDict [("indian_kanoon", ik); ("fact_check_db", fc);
             ("web_search", ws); ("academic", ac)]).

Definition context_entry (w : World)
    (ce : LegalClaim.t * VerificationEvidence.t) : exc pyval :=
  let '(claim, ev) := ce in
  se <- simplified_evidence w ev ;;
  Ok (PDict [("sentence_id", PInt (LegalClaim.sentence_id claim));
             ("original_sentence", PStr (LegalClaim.sentence_text claim));
             ("claim_type", PStr (LegalClaim.claim_type claim));
             ("evidence", se)]).

(** The loop over [zip(claims, evidence_list)] that fills
    [context_data]. *)
Definition context_data (w : World) (claims : list LegalClaim.t)
    (evidence_list : list VerificationEvidence.t) : exc (list pyval) :=
  mapM (context_entry w) (combine claims evidence_list).

(** *** Reading the judge's answer *)

(** One iteration of the loop over [result_json.get("fact_checks", [])]. *)
Definition fact_check_of_item (w : World) (item : pyval)
  : exc LegalFactCheck.t :=
  v0 <- get item "verdict" (PStr "unverifiable") ;;
  verdict <- lower_method v0 ;;
  a_id <- get item "sentence_id" (PInt 0) ;;
  s0 <- get item "sentence" (PStr "") ;;
  a_sentence <- (if truthy s0 then Ok s0 else get item "claim" (PStr "")) ;;
  a_claim <- get item "claim" (PStr "") ;;
  src0 <- get1 item "source" ;;
  a_st <- get item "source_type" (PStr "secondary") ;;
  a_lal <- get item "legal_authority_level" (PStr "secondary") ;;
  a_cp <- get1 item "citation_provided" ;;
  a_cs <- get1 item "corrected_sentence" ;;
  LegalFactCheck.make (coerce w) a_id a_sentence a_claim verdict
    (or_ src0 (PStr "Unknown")) a_st (utcnow w) a_lal a_cp a_cs.

(** The body of the [try] block, from the answer of the judge on. *)
Definition report_of_answer (w : World) (blog_id : string)
    (claims : list LegalClaim.t) (result_json : pyval)
  : exc LegalVerificationReport.t :=
  fcs <- get result_json "fact_checks" (PList []) ;;
  items <- iter fcs ;;
  fact_checks_objs <- mapM (fact_check_of_item w) items ;;
  a_total <- get result_json "total_claims_extracted" (PInt (len claims)) ;;
  a_verifiable <- get result_json "verifiable_claims" (PInt (len claims)) ;;
  a_verified <- get result_json "verified_claims"
                  (PInt (len fact_checks_objs)) ;;
  a_accuracy <- get result_json "accuracy_score" (PFloat 0%float) ;;
  a_breakdown <- get result_json "claims_breakdown" (PDict []) ;;
  LegalVerificationReport.make (coerce w) blog_id a_total a_verifiable
    a_verified a_accuracy a_breakdown fact_checks_objs [] (utcnow w).

(** The [try] / [except Exception] block: the call to the judge, the
    reading of its answer, and the fall-back report. *)
Definition adjudicate (w : World) (blog_id : string)
    (claims : list LegalClaim.t) (payload : list pyval)
  : LegalVerificationReport.t :=
  try_except
    (result_json <- judge_oracle w (PList payload) ;;
     report_of_answer w blog_id claims result_json)
    (fun _ => _generate_empty_report w blog_id (len claims)).

Definition _generate_final_verdict_llm (w : World) (blog_id : string)
    (claims : list LegalClaim.t) (evidence_list : list VerificationEvidence.t)
  : exc LegalVerificationReport.t :=
  payload <- context_data w claims evidence_list ;;
  Ok (adjudicate w blog_id claims payload).

(** *** The pipeline *)

(** Step 2 of [verify_legal_blog]: one gatherer per claim, all awaited
    together, inside the block that keeps the clients' sessions open. *)
Definition gather_all (w : World) (self : t) (claims : list LegalClaim.t)
  : task (list VerificationEvidence.t) :=
  asyncio_gather
    (map (_gather_evidence_for_claim w (enter_clients self)) claims).

Definition verify_legal_blog (w : World) (self : t)
    (blog_content blog_id : string) : exc LegalVerificationReport.t :=
  let extracted_claims := LegalClaimExtractor.extract_claims w blog_content in
  match extracted_claims with
  | [] => Ok (_generate_empty_report w blog_id 0)
  | _ :: _ =>
      evidence_results <- snd (gather_all w self extracted_claims) ;;
      _generate_final_verdict_llm w blog_id extracted_claims evidence_results
  end.

End LegalFactCheckService.

(* ===================================================================== *)
(** ** run_fact.py                                                        *)
(* ===================================================================== *)

Module RunFact.

(** [main], up to the printing of the report.  [getenv] is the process
    environment after [load_dotenv()], and [blog_content] stands for the
    sample text the script holds as a literal.  The result is [None] when
    the script returns before any verification, and otherwise the outcome
    of [verify_legal_blog]. *)
Definition main (getenv : string -> option string) (w : World)
    (blog_content : string) : option (exc LegalVerificationReport.t) :=
  let google_key := getenv "GOOGLE_API_KEY" in
  let cse_id := getenv "GOOGLE_CSE_ID" in
  let gemini_key := getenv "GEMINI_API_KEY" in
  let kanoon_key := getenv "INDIANKANOON_API_KEY" in
  let set (v : option string) :=
    match v with Some s => negb (str_empty s) | None => false end in
  let text (v : option string) :=
    match v with Some s => s | None => "" end in
  if negb (forallb set [google_key; cse_id; gemini_key; kanoon_key])
  then None
  else
    match LegalFactCheckService.init (text google_key) (text cse_id)
            (text gemini_key) (text kanoon_key) None "gemini-2.5-flash-lite"
    with
    | Raise TypeError => None
    | Raise e => Some (Raise e)
    | Ok service =>
        Some (LegalFactCheckService.verify_legal_blog w service blog_content
                "test_blog_001")
    end.

End RunFact.

Import LegalFactCheckService.

(* ===================================================================== *)
(** ** Vocabulary of the statements                                       *)
(* ===================================================================== *)

(** The routing table as the specification words it (section 4.1): a row
    per known category, and general-web alone for any other string. *)
Definition spec_route (category : string) : list Source :=
  if String.eqb category "case_law"
  then [LegalDatabase; GeneralWeb; AcademicIndex]
  else if String.eqb category "statute"
  then [LegalDatabase; GeneralWeb; AcademicIndex]
  else if String.eqb category "legal_fact"
  then [LegalDatabase; GeneralWeb; FactCheckDatabase]
  else if String.eqb category "date_fact"
  then [GeneralWeb; FactCheckDatabase]
  else if String.eqb category "general_fact"
  then [GeneralWeb; FactCheckDatabase]
  else [GeneralWeb].

(** The sources of a list for which the service holds a client: the
    academic index is left out when no academic client was built. *)
Definition reachable (self : LegalFactCheckService.t) (l : list Source)
  : list Source :=
  match academic_client self with
  | Some _ => l
  | None => filter (fun s => negb (Source_eqb s AcademicIndex)) l
  end.

(** The same claim under another category string. *)
Definition with_claim_type (claim : LegalClaim.t) (ty : string)
  : LegalClaim.t :=
  {| LegalClaim.sentence_id := LegalClaim.sentence_id claim;
     LegalClaim.sentence_text := LegalClaim.sentence_text claim;
     LegalClaim.claim_type := ty;
     LegalClaim.search_query := LegalClaim.search_query claim;
     LegalClaim.requires_verification :=
       LegalClaim.requires_verification claim;
     LegalClaim.confidence := LegalClaim.confidence claim;
     LegalClaim.location := LegalClaim.location claim |}.

(** The sources on which the gatherer called [search] for a claim. *)
Definition sources_queried (w : World) (self : LegalFactCheckService.t)
    (claim : LegalClaim.t) : list Source :=
  queried (fst (_gather_evidence_for_claim w self claim)).

(** Every request of a world fails (time-out, transport error, status
    error, body that is not JSON). *)
Definition every_request_fails (w : World) : Prop :=
  forall url params headers, exists e, http_get w url params headers = Raise e.

(** The HTTP clients a service holds. *)
Definition clients_of (self : LegalFactCheckService.t)
  : list Clients.BaseAPIClient :=
  fact_check_client self :: Clients.cs_base (news_client self)
  :: indian_kanoon_client self
  :: match academic_client self with Some c => [c] | None => [] end.


(** The keys under which the four sources deliver their results. *)
Definition result_keys : list string := ["docs"; "items"; "claims"; "data"].

(** Every JSON object a request of a world answers with holds a list under
    each result key it has. *)
Definition answers_hold_lists (w : World) : Prop :=
  forall url params headers d k v,
    http_get w url params headers = Ok (PDict d) ->
    In k result_keys ->
    dict_lookup k d = Some v ->
    is_list v = true.

(** What a guarded unit hands back for a given outcome of its body. *)
Definition absorbed (body : exc pyval) : pyval :=
  try_except body (fun _ => PList []).

(** The payload a run sends to the judge: the evidence of every extracted
    claim, gathered and compressed.  [Raise] when the payload cannot be
    built, in which case the judge is not called. *)
Definition run_payload (w : World) (self : LegalFactCheckService.t)
    (blog_content : string) : exc (list pyval) :=
  let claims := LegalClaimExtractor.extract_claims w blog_content in
  evidence_results <- snd (gather_all w self claims) ;;
  context_data w claims evidence_results.

(** The per-claim results an answer of the judge lists, in its order. *)
Definition listed (answer : pyval) : exc (list pyval) :=
  fcs <- get answer "fact_checks" (PList []) ;;
  iter fcs.

(** The claim identifier an entry of the judge's list carries. *)
Definition item_id (w : World) (item : pyval) : exc Z :=
  raw <- get item "sentence_id" (PInt 0) ;;
  Pydantic.validate_int (coerce w) raw.


(** The identifiers of the verdicts of a report, in report order. *)
Definition verdict_ids (r : LegalVerificationReport.t) : list Z :=
  map LegalFactCheck.sentence_id (LegalVerificationReport.fact_checks r).

(* ===================================================================== *)
(** ** Concrete runs                                                      *)
(* ===================================================================== *)

Module Scenario.

(** A world is fixed by its three remote parties; the clock reads 0, the
    validators accept exact types only. *)
Definition world (http : exc pyval) (extraction judge : exc pyval) : World :=
  {| http_get := fun _ _ _ => http;
     extraction_oracle := fun _ => extraction;
     judge_oracle := fun _ => judge;
     utcnow := 0;
     coerce := Pydantic.strict;
     format := fun v => match v with PStr s => s | _ => "?" end |}.

Definition unreachable : exc pyval := Raise (ClientError "timeout").

Definition silent : exc pyval := Raise (OracleError "no answer").

(** The service as [__init__] builds it, with and without the academic
    key. *)
Definition service_full : LegalFactCheckService.t :=
  {| fact_check_client :=
       {| Clients.api_key := "g-key";
          Clients.base_url := "https://factchecktools.googleapis.com/v1alpha1";
          Clients.session := false |};
     news_client :=
       {| Clients.cs_base :=
            {| Clients.api_key := "g-key";
               Clients.base_url := "https://www.googleapis.com/customsearch/v1";
               Clients.session := false |};
          Clients.cse_id := "cse" |};
     indian_kanoon_client :=
       {| Clients.api_key := "ik-key";
          Clients.base_url := "https://api.indiankanoon.org";
          Clients.session := false |};
     academic_client :=
       Some {| Clients.api_key := "s2-key";
               Clients.base_url := "https://api.semanticscholar.org/graph/v1";
               Clients.session := false |};
     llm_model_name := "gemini-2.5-flash-lite" |}.

Definition service_no_academic : LegalFactCheckService.t :=
  {| fact_check_client := fact_check_client service_full;
     news_client := news_client service_full;
     indian_kanoon_client := indian_kanoon_client service_full;
     academic_client := None;
     llm_model_name := "gemini-2.5-flash-lite" |}.

Definition claim_of (i : Z) (ty : string) : LegalClaim.t :=
  {| LegalClaim.sentence_id := i;
     LegalClaim.sentence_text := "Section 302 IPC was enacted in 1860.";
     LegalClaim.claim_type := ty;
     LegalClaim.search_query := "Section 302 IPC 1860";
     LegalClaim.requires_verification := true;
     LegalClaim.confidence := 1%float;
     LegalClaim.location := "id_1" |}.

(** An item of the extraction oracle's answer. *)
Definition claim_item (i : Z) (ty : string) : pyval :=
  PDict [("sentence_id", PInt i);
         ("sentence_text", PStr "Section 302 IPC was enacted in 1860.");
         ("claim_type", PStr ty);
         ("search_query", PStr "Section 302 IPC 1860")].

Definition extraction_of (items : list pyval) : exc pyval :=
  Ok (PDict [("claims", PList items)]).

(** An item of the judge's [fact_checks] list. *)
Definition verdict_item (i : Z) : pyval :=
  PDict [("sentence_id", PInt i);
         ("sentence", PStr "Section 302 IPC was enacted in 1860.");
         ("claim", PStr "IPC enacted in 1860");
         ("verdict", PStr "accurate");
         ("source", PStr "Indian Kanoon");
         ("source_type", PStr "legal_official");
         ("legal_authority_level", PStr "statute")].

(** Every source answers with a JSON object whose result keys hold
    [null]. *)
Definition null_results : exc pyval :=
  Ok (PDict [("claims", PNone); ("items", PNone); ("docs", PNone);
             ("data", PNone)]).

(** Every source answers with one record under each result key. *)
Definition one_hit : exc pyval :=
  let hit := PList [PDict [("title", PStr "State v. X")]] in
  Ok (PDict [("claims", hit); ("items", hit); ("docs", hit); ("data", hit)]).

(** The extraction oracle finds nothing to verify. *)
Definition nothing_to_verify : World :=
  world unreachable (extraction_of []) silent.

(** Five claims are extracted and the judge does not answer. *)
Definition five_claims_judge_down : World :=
  world unreachable
    (extraction_of [claim_item 1 "statute"; claim_item 2 "case_law";
                    claim_item 3 "date_fact"; claim_item 4 "legal_fact";
                    claim_item 5 "general_fact"])
    silent.

(** Claims 1 and 2 are extracted; the judge lists its verdict on claim 2
    before its verdict on claim 1. *)
Definition judge_lists_backwards : World :=
  world unreachable
    (extraction_of [claim_item 1 "statute"; claim_item 2 "date_fact"])
    (Ok (PDict [("fact_checks", PList [verdict_item 2; verdict_item 1])])).


(** Claims 1 and 2 are extracted; the judge lists one verdict per claim and
    reports no total. *)
Definition judge_in_order : World :=
  world unreachable
    (extraction_of [claim_item 1 "statute"; claim_item 2 "date_fact"])
    (Ok (PDict [("fact_checks", PList [verdict_item 1; verdict_item 2])])).


(** A bundle whose legal-database field holds five records, numbered 11 to
    15, and whose other fields are empty. *)
Definition five_legal_records : VerificationEvidence.t :=
  {| VerificationEvidence.claim_id := 1;
     VerificationEvidence.google_fact_checks := PList [];
     VerificationEvidence.news_results := PList [];
     VerificationEvidence.academic_results := PList [];
     VerificationEvidence.indian_kanoon_results :=
       PList (map (fun t => PDict [("tid", PStr t)])
                ["11"; "12"; "13"; "14"; "15"]) |}.

(** An environment in which the four keys of [run_fact.py] are set. *)
Definition full_env (name : string) : option string :=
  if str_in name ["GOOGLE_API_KEY"; "GOOGLE_CSE_ID"; "GEMINI_API_KEY";
                  "INDIANKANOON_API_KEY"]
  then Some "secret" else None.

End Scenario.

(* ===================================================================== *)
(** ** Basic facts about the Python layer                                 *)
(* ===================================================================== *)

Lemma lower_ascii_idempotent (c : ascii) :
  lower_ascii (lower_ascii c) = lower_ascii c.
Proof.
  destruct c as [b0 b1 b2 b3 b4 b5 b6 b7].
  destruct b0, b1, b2, b3, b4, b5, b6, b7; reflexivity.
Qed.

Lemma lower_idempotent (s : string) : lower (lower s) = lower s.
Proof.
  induction s as [|c s IH]; simpl.
  - reflexivity.
  - now rewrite lower_ascii_idempotent, IH.
Qed.

Lemma mapM_length {A B : Type} (f : A -> exc B) (l : list A) (out : list B) :
  mapM f l = Ok out -> length out = length l.
Proof.
  revert out; induction l as [|x xs IH]; simpl; intros out H.
  - now inversion H.
  - destruct (f x) as [y|e]; simpl in H; [|discriminate].
    destruct (mapM f xs) as [ys|e]; simpl in H; [|discriminate].
    inversion H; subst; simpl. now rewrite (IH ys eq_refl).
Qed.

Lemma mapM_map {A B : Type} (f : A -> exc B) (g : A -> B) (l : list A) :
  (forall x, In x l -> f x = Ok (g x)) -> mapM f l = Ok (map g l).
Proof.
  induction l as [|x xs IH]; simpl; intros H.
  - reflexivity.
  - rewrite (H x (or_introl eq_refl)); simpl.
    rewrite IH by (intros y Hy; apply H; now right). reflexivity.
Qed.

(* ===================================================================== *)
(** ** The evidence gatherer                                              *)
(* ===================================================================== *)

Lemma guarded_result (s : Source) (q : string) (i : Z) (body : exc pyval) :
  snd (guarded s q i body) = Ok (absorbed body).
Proof. destruct body; reflexivity. Qed.

Lemma guarded_queried (s : Source) (q : string) (i : Z) (body : exc pyval) :
  queried (fst (guarded s q i body)) = [s].
Proof. destruct body; reflexivity. Qed.

(** A unit whose body raises hands back the empty list. *)
Lemma guarded_raise (s : Source) (q : string) (i : Z) (e : exn) :
  snd (guarded s q i (Raise e)) = Ok (PList []).
Proof. reflexivity. Qed.

(** A unit whose client answers with something else than a [dict] hands
    back the empty list. *)
Lemma absorbed_not_dict (res : pyval) (k : string) :
  (forall d, res <> PDict d) ->
  absorbed (get res k (PList [])) = PList [].
Proof.
  intros H; destruct res; try reflexivity. now elim (H d).
Qed.

(** A unit whose client answers with a [dict] hands back what sits under
    the result key, whatever it is, and the empty list when the key is
    missing. *)
Lemma absorbed_dict (d : list (string * pyval)) (k : string) :
  absorbed (get (PDict d) k (PList [])) =
  match dict_lookup k d with Some v => v | None => PList [] end.
Proof. reflexivity. Qed.

Section GatherFacts.

Variable w : World.
Variable self : LegalFactCheckService.t.
Variable claim : LegalClaim.t.

Lemma fetch_kanoon_returns : exists v, snd (fetch_kanoon w self claim) = Ok v.
Proof. unfold fetch_kanoon; rewrite guarded_result; eauto. Qed.

Lemma fetch_news_returns : exists v, snd (fetch_news w self claim) = Ok v.
Proof. unfold fetch_news; rewrite guarded_result; eauto. Qed.

Lemma fetch_fact_returns : exists v, snd (fetch_fact w self claim) = Ok v.
Proof. unfold fetch_fact; rewrite guarded_result; eauto. Qed.

Lemma fetch_academic_returns :
  exists v, snd (fetch_academic w self claim) = Ok v.
Proof.
  unfold fetch_academic; destruct (academic_client self).
  - rewrite guarded_result; eauto.
  - simpl; eauto.
Qed.

(** The gatherer never raises: it always returns a bundle, and the bundle
    carries the identifier of the claim. *)
Lemma gather_returns :
  exists ev,
    snd (_gather_evidence_for_claim w self claim) = Ok ev /\
    VerificationEvidence.claim_id ev = LegalClaim.sentence_id claim.
Proof.
  unfold _gather_evidence_for_claim, routing_tasks, asyncio_gather.
  cbn [app map snd fst mapM].
  destruct fetch_news_returns as [n Hn]; rewrite Hn.
  destruct (str_in _ ["case_law"; "statute"; "legal_fact"]);
    [destruct fetch_kanoon_returns as [k Hk]; rewrite Hk|];
  (destruct (str_in _ ["date_fact"; "general_fact"; "legal_fact"]);
    [destruct fetch_fact_returns as [f Hf]; rewrite Hf|]);
  (destruct (str_in _ ["case_law"; "statute"]);
    [destruct fetch_academic_returns as [a Ha]; rewrite Ha|]);
  cbn; eexists; split; reflexivity.
Qed.

End GatherFacts.

Section Routing.

Variable w : World.
Variable self : LegalFactCheckService.t.

Lemma fetch_academic_queried (claim : LegalClaim.t) :
  queried (fst (fetch_academic w self claim)) = reachable self [AcademicIndex].
Proof.
  unfold fetch_academic, reachable; destruct (academic_client self).
  - apply guarded_queried.
  - reflexivity.
Qed.

(** The [search] calls of the gatherer, unit by unit, as a function of the
    lowercased category. *)
Lemma sources_queried_unfold (claim : LegalClaim.t) :
  sources_queried w self claim =
  let ty := lower (LegalClaim.claim_type claim) in
  ((if str_in ty ["case_law"; "statute"; "legal_fact"]
    then [LegalDatabase] else [])
   ++ [GeneralWeb]
   ++ (if str_in ty ["date_fact"; "general_fact"; "legal_fact"]
       then [FactCheckDatabase] else [])
   ++ (if str_in ty ["case_law"; "statute"]
       then reachable self [AcademicIndex] else []))%list.
Proof.
  unfold sources_queried, _gather_evidence_for_claim, routing_tasks,
    asyncio_gather.
  cbn [app map fst snd concat].
  assert (Q : forall a b : list event,
             queried (a ++ b) = (queried a ++ queried b)%list).
  { induction a as [|[s q|s i] a IH]; intros b; simpl; now rewrite ?IH. }
  rewrite !Q.
  unfold fetch_news at 1; rewrite guarded_queried.
  destruct (str_in _ ["case_law"; "statute"; "legal_fact"]);
  destruct (str_in _ ["date_fact"; "general_fact"; "legal_fact"]);
  destruct (str_in _ ["case_law"; "statute"]);
  cbn [fst sleep0 queried app];
  rewrite ?fetch_academic_queried;
  try (unfold fetch_kanoon; rewrite guarded_queried);
  try (unfold fetch_fact; rewrite guarded_queried);
  cbn [app]; rewrite ?app_nil_r; reflexivity.
Qed.

(** The routing conditions of the code, read as a table on the lowercased
    category, are the table of the specification. *)
Lemma routing_conditions_table (ty : string) :
  ((if str_in ty ["case_law"; "statute"; "legal_fact"]
    then [LegalDatabase] else [])
   ++ [GeneralWeb]
   ++ (if str_in ty ["date_fact"; "general_fact"; "legal_fact"]
       then [FactCheckDatabase] else [])
   ++ (if str_in ty ["case_law"; "statute"]
       then reachable self [AcademicIndex] else []))%list
  = reachable self (spec_route ty).
Proof.
  unfold str_in, spec_route, existsb, reachable.
  destruct (String.eqb_spec ty "case_law") as [->|H1];
    [destruct (academic_client self); reflexivity|].
  destruct (String.eqb_spec ty "statute") as [->|H2];
    [destruct (academic_client self); reflexivity|].
  destruct (String.eqb_spec ty "legal_fact") as [->|H3];
    [destruct (academic_client self); reflexivity|].
  destruct (String.eqb_spec ty "date_fact") as [->|H4];
    [destruct (academic_client self); reflexivity|].
  destruct (String.eqb_spec ty "general_fact") as [->|H5];
    [destruct (academic_client self); reflexivity|].
  destruct (academic_client self); reflexivity.
Qed.

End Routing.

(** C1 (as amended).  For every claim, the sources on which the gatherer
    calls [search] are those of the routing table read at the lowercased
    category string, minus the academic index when the service holds no
    academic client; a claim whose lowercased category is none of the five
    known strings gets general-web alone, and general-web is queried for
    every claim. *)
Theorem C1_routing_table_on_lowercased_category
    (w : World) (self : LegalFactCheckService.t) (claim : LegalClaim.t) :
  (forall s, In s (sources_queried w self claim) <->
             In s (reachable self
                     (spec_route (lower (LegalClaim.claim_type claim)))))
  /\ (~ In (lower (LegalClaim.claim_type claim))
          ["case_law"; "statute"; "legal_fact"; "date_fact"; "general_fact"]
      -> sources_queried w self claim = [GeneralWeb])
  /\ In GeneralWeb (sources_queried w self claim).
Proof.
  rewrite sources_queried_unfold; cbv zeta.
  rewrite routing_conditions_table.
  repeat split; try tauto.
  - intros Hn. unfold spec_route.
    repeat match goal with
    | |- context [String.eqb ?a ?b] =>
        destruct (String.eqb_spec a b) as [E|_];
        [exfalso; apply Hn; rewrite E; simpl; tauto|]
    end.
    unfold reachable; destruct (academic_client self); reflexivity.
  - unfold spec_route, reachable.
    repeat match goal with
    | |- context [String.eqb ?a ?b] => destruct (String.eqb a b)
    end;
    destruct (academic_client self); simpl; tauto.
Qed.

(** C1 (as stated) fails on a category written in capitals: ["CASE_LAW"] is
    none of the five known strings, yet the legal database and the academic
    index are queried besides general-web. *)
Lemma C1_uppercase_category_counterexample :
  ~ In "CASE_LAW"
       ["case_law"; "statute"; "legal_fact"; "date_fact"; "general_fact"]
  /\ spec_route (LegalClaim.claim_type (Scenario.claim_of 1 "CASE_LAW"))
     = [GeneralWeb]
  /\ sources_queried (Scenario.world Scenario.one_hit Scenario.silent
                        Scenario.silent)
       (enter_clients Scenario.service_full) (Scenario.claim_of 1 "CASE_LAW")
     = [LegalDatabase; GeneralWeb; AcademicIndex].
Proof.
  split; [|split]; [|reflexivity|reflexivity].
  simpl; intuition discriminate.
Qed.

Lemma C1_unknown_category_witness :
  sources_queried (Scenario.world Scenario.one_hit Scenario.silent
                     Scenario.silent)
    (enter_clients Scenario.service_full) (Scenario.claim_of 1 "opinion")
  = [GeneralWeb].
Proof.
  apply (C1_routing_table_on_lowercased_category
           (Scenario.world Scenario.one_hit Scenario.silent Scenario.silent)
           (enter_clients Scenario.service_full)
           (Scenario.claim_of 1 "opinion")).
  simpl; intuition discriminate.
Defined.

(** *** Failure absorption *)

Section Failures.

Variable w : World.
Variable self : LegalFactCheckService.t.
Variable claim : LegalClaim.t.

Hypothesis down : every_request_fails w.

Lemma make_request_fails (c : Clients.BaseAPIClient) (endpoint : string)
    (params : list (string * pyval)) (headers : option (list (string * string))) :
  exists e, Clients._make_request w c endpoint params headers = Raise e.
Proof.
  unfold Clients._make_request.
  destruct (negb (Clients.session c)); [eauto|apply down].
Qed.

(** When every source call fails the gatherer still returns a bundle, and
    its four fields are empty lists. *)
Lemma gather_when_every_source_fails :
  exists ev,
    snd (_gather_evidence_for_claim w self claim) = Ok ev /\
    VerificationEvidence.indian_kanoon_results ev = PList [] /\
    VerificationEvidence.news_results ev = PList [] /\
    VerificationEvidence.google_fact_checks ev = PList [] /\
    VerificationEvidence.academic_results ev = PList [].
Proof.
  assert (K : snd (fetch_kanoon w self claim) = Ok (PList [])).
  { unfold fetch_kanoon, Clients.IndianKanoonClient_search.
    destruct (str_empty _); [reflexivity|].
    destruct (make_request_fails (indian_kanoon_client self) "search/"
                [("formInput", PStr (LegalClaim.search_query claim));
                 ("pagenum", PInt 0)]
                (Some [("Authorization",
                        "Token " ++ Clients.api_key (indian_kanoon_client self));
                       ("Accept", "application/json")])) as [e He].
    rewrite He; reflexivity. }
  assert (N : snd (fetch_news w self claim) = Ok (PList [])).
  { unfold fetch_news, Clients.GoogleCustomSearchClient_search.
    match goal with
    | |- context [Clients._make_request w ?c ?ep ?ps ?hs] =>
        destruct (make_request_fails c ep ps hs) as [e He]; rewrite He
    end; reflexivity. }
  assert (F : snd (fetch_fact w self claim) = Ok (PList [])).
  { unfold fetch_fact, Clients.GoogleFactCheckClient_search.
    match goal with
    | |- context [Clients._make_request w ?c ?ep ?ps ?hs] =>
        destruct (make_request_fails c ep ps hs) as [e He]; rewrite He
    end; reflexivity. }
  assert (A : snd (fetch_academic w self claim) = Ok (PList [])).
  { unfold fetch_academic; destruct (academic_client self) as [c|];
      [|reflexivity].
    unfold Clients.SemanticScholarClient_search.
    match goal with
    | |- context [Clients._make_request w ?c ?ep ?ps ?hs] =>
        destruct (make_request_fails c ep ps hs) as [e He]; rewrite He
    end; reflexivity. }
  unfold _gather_evidence_for_claim, routing_tasks, asyncio_gather.
  cbn [app map snd fst mapM].
  rewrite N.
  destruct (str_in _ ["case_law"; "statute"; "legal_fact"]);
  destruct (str_in _ ["date_fact"; "general_fact"; "legal_fact"]);
  destruct (str_in _ ["case_law"; "statute"]);
  rewrite ?K, ?F, ?A; cbn; eexists; repeat split; reflexivity.
Qed.

End Failures.

(** When the sources keep lists under their result keys, every field of
    the bundle is a list, whatever else fails. *)
Lemma request_then_get_is_list
    (w : World) (c : Clients.BaseAPIClient) (endpoint : string)
    (params : list (string * pyval)) (headers : option (list (string * string)))
    (k : string) :
  answers_hold_lists w -> In k result_keys ->
  is_list (absorbed (res <- Clients._make_request w c endpoint params headers ;;
                     get res k (PList []))) = true.
Proof.
  intros Hw Hk. unfold Clients._make_request.
  destruct (negb (Clients.session c)); [reflexivity|].
  match goal with
  | |- context [http_get w ?u ?p ?h] => destruct (http_get w u p h) as [res|e] eqn:E
  end; [|reflexivity].
  destruct res as [| | | | | |d]; try reflexivity.
  cbn [bind get absorbed try_except].
  destruct (dict_lookup k d) as [v|] eqn:L; [|reflexivity].
  exact (Hw _ _ _ d k v E Hk L).
Qed.

Lemma gather_fields_are_lists
    (w : World) (self : LegalFactCheckService.t) (claim : LegalClaim.t) :
  answers_hold_lists w ->
  exists ev,
    snd (_gather_evidence_for_claim w self claim) = Ok ev /\
    is_list (VerificationEvidence.indian_kanoon_results ev) = true /\
    is_list (VerificationEvidence.news_results ev) = true /\
    is_list (VerificationEvidence.google_fact_checks ev) = true /\
    is_list (VerificationEvidence.academic_results ev) = true.
Proof.
  intros Hw.
  assert (K : exists v, snd (fetch_kanoon w self claim) = Ok v /\
                        is_list v = true).
  { unfold fetch_kanoon; rewrite guarded_result; eexists; split; [reflexivity|].
    unfold Clients.IndianKanoonClient_search.
    destruct (str_empty _); [reflexivity|].
    apply request_then_get_is_list; [assumption|simpl; tauto]. }
  assert (N : exists v, snd (fetch_news w self claim) = Ok v /\
                        is_list v = true).
  { unfold fetch_news; rewrite guarded_result; eexists; split; [reflexivity|].
    apply request_then_get_is_list; [assumption|simpl; tauto]. }
  assert (F : exists v, snd (fetch_fact w self claim) = Ok v /\
                        is_list v = true).
  { unfold fetch_fact; rewrite guarded_result; eexists; split; [reflexivity|].
    apply request_then_get_is_list; [assumption|simpl; tauto]. }
  assert (A : exists v, snd (fetch_academic w self claim) = Ok v /\
                        is_list v = true).
  { unfold fetch_academic; destruct (academic_client self) as [c|].
    - rewrite guarded_result; eexists; split; [reflexivity|].
      apply request_then_get_is_list; [assumption|simpl; tauto].
    - eexists; split; reflexivity. }
  destruct K as [k [Hk Lk]], N as [n [Hn Ln]], F as [f [Hf Lf]],
    A as [a [Ha La]].
  unfold _gather_evidence_for_claim, routing_tasks, asyncio_gather.
  cbn [app map snd fst mapM].
  rewrite Hn.
  destruct (str_in _ ["case_law"; "statute"; "legal_fact"]);
  destruct (str_in _ ["date_fact"; "general_fact"; "legal_fact"]);
  destruct (str_in _ ["case_law"; "statute"]);
  rewrite ?Hk, ?Hf, ?Ha; cbn;
  eexists; repeat split; assumption || reflexivity.
Qed.

(** C2 (the code at the failing input).  A source that answers with a JSON
    object whose result key holds [null] does not raise, so nothing is
    absorbed: the gatherer returns a bundle whose fact-check and web fields
    are [None], not sequences. *)
Lemma C2_null_result_key_leaves_non_sequence :
  exists ev,
    snd (_gather_evidence_for_claim
           (Scenario.world Scenario.null_results Scenario.silent
              Scenario.silent)
           (enter_clients Scenario.service_full)
           (Scenario.claim_of 1 "general_fact")) = Ok ev /\
    VerificationEvidence.google_fact_checks ev = PNone /\
    VerificationEvidence.news_results ev = PNone /\
    is_list (VerificationEvidence.google_fact_checks ev) = false /\
    is_list (VerificationEvidence.news_results ev) = false.
Proof. eexists; repeat split; reflexivity. Qed.

(** Downstream, such a bundle makes the pipeline raise while it builds the
    payload for the judge, outside the [try] block. *)
Lemma null_result_key_aborts_pipeline :
  verify_legal_blog
    (Scenario.world Scenario.null_results
       (Scenario.extraction_of [Scenario.claim_item 1 "general_fact"])
       Scenario.silent)
    Scenario.service_full "text" "blog"
  = Raise TypeError.
Proof. reflexivity. Qed.

(** C8.  For every claim of category [date_fact], whatever the clients
    would answer, the gatherer returns a bundle whose legal-database and
    academic-index fields are empty, and it calls neither client. *)
Theorem C8_date_fact_gets_no_legal_or_academic_evidence
    (w : World) (self : LegalFactCheckService.t) (claim : LegalClaim.t) :
  LegalClaim.claim_type claim = "date_fact" ->
  exists ev,
    snd (_gather_evidence_for_claim w self claim) = Ok ev /\
    VerificationEvidence.indian_kanoon_results ev = PList [] /\
    VerificationEvidence.academic_results ev = PList [] /\
    ~ In LegalDatabase (sources_queried w self claim) /\
    ~ In AcademicIndex (sources_queried w self claim).
Proof.
  intros H.
  rewrite sources_queried_unfold.
  unfold _gather_evidence_for_claim, routing_tasks, asyncio_gather.
  rewrite H. cbn [lower lower_ascii]. 
  cbn [app map snd fst mapM].
  destruct (fetch_news_returns w self claim) as [n Hn].
  destruct (fetch_fact_returns w self claim) as [f Hf].
  change (str_in _ ["case_law"; "statute"; "legal_fact"]) with false.
  change (str_in _ ["date_fact"; "general_fact"; "legal_fact"]) with true.
  change (str_in _ ["case_law"; "statute"]) with false.
  cbv iota. rewrite Hn, Hf. cbn.
  eexists; repeat split; try reflexivity; intuition discriminate.
Qed.

Lemma C8_date_fact_witness :
  exists ev,
    snd (_gather_evidence_for_claim
           (Scenario.world Scenario.one_hit Scenario.silent Scenario.silent)
           (enter_clients Scenario.service_full)
           (Scenario.claim_of 3 "date_fact")) = Ok ev /\
    VerificationEvidence.indian_kanoon_results ev = PList [] /\
    VerificationEvidence.academic_results ev = PList [] /\
    ~ In LegalDatabase
        (sources_queried
           (Scenario.world Scenario.one_hit Scenario.silent Scenario.silent)
           (enter_clients Scenario.service_full)
           (Scenario.claim_of 3 "date_fact")) /\
    ~ In AcademicIndex
        (sources_queried
           (Scenario.world Scenario.one_hit Scenario.silent Scenario.silent)
           (enter_clients Scenario.service_full)
           (Scenario.claim_of 3 "date_fact")).
Proof.
  apply (C8_date_fact_gets_no_legal_or_academic_evidence
           (Scenario.world Scenario.one_hit Scenario.silent Scenario.silent)
           (enter_clients Scenario.service_full)
           (Scenario.claim_of 3 "date_fact")).
  reflexivity.
Defined.

(** The gatherer reads the category through [lower] only: the whole
    outcome, bundle and events, is that of the lowercased category. *)
Lemma gather_case_insensitive
    (w : World) (self : LegalFactCheckService.t) (claim : LegalClaim.t) :
  _gather_evidence_for_claim w self
    (with_claim_type claim (lower (LegalClaim.claim_type claim)))
  = _gather_evidence_for_claim w self claim.
Proof.
  unfold _gather_evidence_for_claim, routing_tasks, with_claim_type.
  cbn [LegalClaim.claim_type LegalClaim.sentence_id].
  rewrite lower_idempotent. reflexivity.
Qed.

(** C9.  Routing does not depend on the letter case of the category: the
    sources queried for a claim are those queried for the same claim with
    its category string lowercased. *)
Theorem C9_routing_ignores_letter_case
    (w : World) (self : LegalFactCheckService.t) (claim : LegalClaim.t)
    (s : Source) :
  In s (sources_queried w self claim) <->
  In s (sources_queried w self
          (with_claim_type claim (lower (LegalClaim.claim_type claim)))).
Proof.
  unfold sources_queried. now rewrite gather_case_insensitive.
Qed.

(** A service built without academic key holds no academic client. *)
Lemma init_without_academic_key
    (google_api_key cse_id gemini_api_key indian_kanoon_key llm_model : string)
    (svc : LegalFactCheckService.t) :
  LegalFactCheckService.init google_api_key cse_id gemini_api_key
    indian_kanoon_key None llm_model = Ok svc ->
  academic_client svc = None.
Proof.
  unfold LegalFactCheckService.init.
  repeat match goal with
  | |- context [if ?b then Raise _ else _] =>
      destruct b; [discriminate|]
  end.
  destruct (Clients.GoogleFactCheckClient _); [|discriminate].
  destruct (Clients.GoogleCustomSearchClient _ _); [|discriminate].
  destruct (Clients.IndianKanoonClient _); [|discriminate].
  simpl. intros H; inversion H; reflexivity.
Qed.

Lemma gather_without_academic_client
    (w : World) (self : LegalFactCheckService.t) (claim : LegalClaim.t) :
  academic_client self = None ->
  exists ev,
    snd (_gather_evidence_for_claim w self claim) = Ok ev /\
    VerificationEvidence.academic_results ev = PList [] /\
    ~ In AcademicIndex (sources_queried w self claim).
Proof.
  intros H.
  rewrite sources_queried_unfold.
  unfold _gather_evidence_for_claim, routing_tasks, asyncio_gather, reachable.
  cbn [app map snd fst mapM].
  assert (A : fetch_academic w self claim = ([], Ok (PList [])))
    by (unfold fetch_academic; now rewrite H).
  rewrite H, A.
  destruct (fetch_news_returns w self claim) as [n Hn]; rewrite Hn.
  destruct (str_in _ ["case_law"; "statute"; "legal_fact"]);
    [destruct (fetch_kanoon_returns w self claim) as [k Hk]; rewrite Hk|];
  (destruct (str_in _ ["date_fact"; "general_fact"; "legal_fact"]);
    [destruct (fetch_fact_returns w self claim) as [f Hf]; rewrite Hf|]);
  destruct (str_in _ ["case_law"; "statute"]);
  cbn; (eexists; repeat split; try reflexivity; intuition discriminate).
Qed.

(** C10.  A service constructed without academic key returns, for every
    claim, a bundle whose academic field is the empty list, and makes no
    call to the academic index; this holds for the service as built and
    inside the pipeline's client block, and for [case_law] and [statute]
    claims like for any other. *)
Theorem C10_no_academic_key_gives_empty_academic_field
    (w : World)
    (google_api_key cse_id gemini_api_key indian_kanoon_key llm_model : string)
    (svc : LegalFactCheckService.t) (claim : LegalClaim.t) :
  LegalFactCheckService.init google_api_key cse_id gemini_api_key
    indian_kanoon_key None llm_model = Ok svc ->
  (exists ev,
     snd (_gather_evidence_for_claim w svc claim) = Ok ev /\
     VerificationEvidence.academic_results ev = PList [] /\
     ~ In AcademicIndex (sources_queried w svc claim))
  /\
  (exists ev,
     snd (_gather_evidence_for_claim w (enter_clients svc) claim) = Ok ev /\
     VerificationEvidence.academic_results ev = PList [] /\
     ~ In AcademicIndex (sources_queried w (enter_clients svc) claim)).
Proof.
  intros H; apply init_without_academic_key in H.
  split; apply gather_without_academic_client.
  - exact H.
  - simpl; now rewrite H.
Qed.

Lemma C10_case_law_witness :
  (exists ev,
     snd (_gather_evidence_for_claim
            (Scenario.world Scenario.one_hit Scenario.silent Scenario.silent)
            Scenario.service_no_academic (Scenario.claim_of 2 "case_law"))
     = Ok ev /\
     VerificationEvidence.academic_results ev = PList [] /\
     ~ In AcademicIndex
         (sources_queried
            (Scenario.world Scenario.one_hit Scenario.silent Scenario.silent)
            Scenario.service_no_academic (Scenario.claim_of 2 "case_law")))
  /\
  (exists ev,
     snd (_gather_evidence_for_claim
            (Scenario.world Scenario.one_hit Scenario.silent Scenario.silent)
            (enter_clients Scenario.service_no_academic)
            (Scenario.claim_of 2 "case_law"))
     = Ok ev /\
     VerificationEvidence.academic_results ev = PList [] /\
     ~ In AcademicIndex
         (sources_queried
            (Scenario.world Scenario.one_hit Scenario.silent Scenario.silent)
            (enter_clients Scenario.service_no_academic)
            (Scenario.claim_of 2 "case_law"))).
Proof.
  apply (C10_no_academic_key_gives_empty_academic_field
           (Scenario.world Scenario.one_hit Scenario.silent Scenario.silent)
           "g-key" "cse" "gemini-key" "ik-key" "gemini-2.5-flash-lite"
           Scenario.service_no_academic (Scenario.claim_of 2 "case_law")).
  reflexivity.
Defined.

(* ===================================================================== *)
(** ** The pipeline                                                       *)
(* ===================================================================== *)

Ltac bind_inv H :=
  match type of H with
  | bind ?c _ = Ok _ =>
      let E := fresh "E" in
      destruct c eqn:E; [cbn [bind] in H | discriminate H]
  end.

Lemma mapM_Forall2 {A B : Type} (f : A -> exc B) (l : list A) (out : list B) :
  mapM f l = Ok out -> Forall2 (fun x y => f x = Ok y) l out.
Proof.
  revert out; induction l as [|x xs IH]; simpl; intros out H.
  - inversion H; constructor.
  - bind_inv H. bind_inv H. inversion H; subst.
    constructor; [assumption | now apply IH].
Qed.

(** The gathering stage never fails the batch: one bundle per claim, in
    the order of the claims. *)
Lemma gather_all_returns
    (w : World) (self : LegalFactCheckService.t) (claims : list LegalClaim.t) :
  exists evs,
    snd (gather_all w self claims) = Ok evs /\
    map VerificationEvidence.claim_id evs = map LegalClaim.sentence_id claims.
Proof.
  unfold gather_all, asyncio_gather; cbn [snd].
  induction claims as [|c cs [evs [H1 H2]]]; cbn [map mapM].
  - exists []; split; reflexivity.
  - destruct (gather_returns w (enter_clients self) c) as [ev [Hev Hid]].
    rewrite Hev, H1; cbn [bind].
    exists (ev :: evs); split; [reflexivity|].
    cbn [map]; now rewrite Hid, H2.
Qed.

(** The pipeline, stage by stage. *)
Lemma verify_legal_blog_unfold
    (w : World) (self : LegalFactCheckService.t) (content blog_id : string) :
  verify_legal_blog w self content blog_id =
  match LegalClaimExtractor.extract_claims w content with
  | [] => Ok (_generate_empty_report w blog_id 0)
  | _ :: _ =>
      payload <- run_payload w self content ;;
      Ok (adjudicate w blog_id
            (LegalClaimExtractor.extract_claims w content) payload)
  end.
Proof.
  unfold verify_legal_blog, run_payload, _generate_final_verdict_llm.
  destruct (LegalClaimExtractor.extract_claims w content) as [|c cs];
    [reflexivity|].
  destruct (snd (gather_all w self (c :: cs))); reflexivity.
Qed.


(** A report comes either from the fall-back or from an answer of the
    judge that was read to the end. *)
Lemma adjudicate_cases
    (w : World) (blog_id : string) (claims : list LegalClaim.t)
    (payload : list pyval) :
  adjudicate w blog_id claims payload
  = _generate_empty_report w blog_id (len claims)
  \/ exists answer,
       judge_oracle w (PList payload) = Ok answer /\
       report_of_answer w blog_id claims answer
       = Ok (adjudicate w blog_id claims payload).
Proof.
  unfold adjudicate.
  destruct (judge_oracle w (PList payload)) as [answer|e]; cbn [bind].
  - destruct (report_of_answer w blog_id claims answer) as [r|e] eqn:E;
      cbn [try_except].
    + right; exists answer; split; [reflexivity | first [exact E | reflexivity]].
    + now left.
  - now left.
Qed.

(** What a report read from an answer of the judge contains. *)
Lemma report_of_answer_inv
    (w : World) (blog_id : string) (claims : list LegalClaim.t)
    (answer : pyval) (r : LegalVerificationReport.t) :
  report_of_answer w blog_id claims answer = Ok r ->
  exists items raw_total,
    listed answer = Ok items /\
    mapM (fact_check_of_item w) items
    = Ok (LegalVerificationReport.fact_checks r) /\
    get answer "total_claims_extracted" (PInt (len claims)) = Ok raw_total /\
    Pydantic.validate_int (coerce w) raw_total
    = Ok (LegalVerificationReport.total_claims_extracted r) /\
    LegalVerificationReport.recommendations r = [].
Proof.
  unfold report_of_answer, listed, LegalVerificationReport.make; intros H.
  do 13 bind_inv H.
  inversion H; subst; cbn.
  eexists _, _; repeat split; cbn [bind]; eassumption.
Qed.

Lemma empty_report_fields (w : World) (blog_id : string) (count : Z) :
  let r := _generate_empty_report w blog_id count in
  LegalVerificationReport.total_claims_extracted r = count /\
  LegalVerificationReport.verified_claims r = 0 /\
  LegalVerificationReport.accuracy_score r = 0%float /\
  LegalVerificationReport.fact_checks r = [] /\
  LegalVerificationReport.recommendations r = ["Analysis failed."].
Proof. repeat split. Qed.

(** C3 (as stated) fails: on a document from which the extraction oracle
    reports no claim at all, the report carries the failure
    recommendation. *)
Lemma C3_zero_claims_counterexample :
  LegalClaimExtractor.extract_claims Scenario.nothing_to_verify "text" = []
  /\ exists r,
       verify_legal_blog Scenario.nothing_to_verify Scenario.service_full
         "text" "blog" = Ok r /\
       LegalVerificationReport.recommendations r = ["Analysis failed."] /\
       LegalVerificationReport.recommendations r <> [].
Proof.
  split; [reflexivity|].
  eexists; split; [reflexivity|]; split; [reflexivity|discriminate].
Qed.

(** C3 (as amended).  On a document from which zero claims are extracted
    the pipeline returns a report with [total_claims_extracted = 0],
    [verified_claims = 0], [accuracy_score = 0.0], no verdict, and the one
    recommendation ["Analysis failed."], the same as on a failed
    adjudication. *)
Theorem C3_zero_claims_report
    (w : World) (self : LegalFactCheckService.t) (content blog_id : string) :
  LegalClaimExtractor.extract_claims w content = [] ->
  exists r,
    verify_legal_blog w self content blog_id = Ok r /\
    LegalVerificationReport.total_claims_extracted r = 0 /\
    LegalVerificationReport.verified_claims r = 0 /\
    LegalVerificationReport.accuracy_score r = 0%float /\
    LegalVerificationReport.fact_checks r = [] /\
    LegalVerificationReport.recommendations r = ["Analysis failed."].
Proof.
  intros H. rewrite verify_legal_blog_unfold, H.
  eexists; split; [reflexivity|]. apply empty_report_fields.
Qed.

Lemma C3_zero_claims_witness :
  exists r,
    verify_legal_blog Scenario.nothing_to_verify Scenario.service_full
      "text" "blog" = Ok r /\
    LegalVerificationReport.total_claims_extracted r = 0 /\
    LegalVerificationReport.verified_claims r = 0 /\
    LegalVerificationReport.accuracy_score r = 0%float /\
    LegalVerificationReport.fact_checks r = [] /\
    LegalVerificationReport.recommendations r = ["Analysis failed."].
Proof.
  apply (C3_zero_claims_report Scenario.nothing_to_verify
           Scenario.service_full "text" "blog").
  reflexivity.
Defined.



(* ===================================================================== *)
(** ** Verdicts                                                           *)
(* ===================================================================== *)

(** A verdict carries the identifier of the entry it was read from. *)
Lemma fact_check_of_item_id (w : World) (item : pyval) (fc : LegalFactCheck.t) :
  fact_check_of_item w item = Ok fc ->
  item_id w item = Ok (LegalFactCheck.sentence_id fc).
Proof.
  unfold fact_check_of_item, item_id, LegalFactCheck.make; intros H.
  do 3 bind_inv H. cbn [bind].
  do 8 bind_inv H.
  destruct (Pydantic.validate_int (coerce w) a1) as [i|]; [|discriminate H].
  cbn [bind] in H. do 8 bind_inv H.
  inversion H; reflexivity.
Qed.

Lemma Forall2_mapM {A B : Type} (f : A -> exc B) (l : list A) (out : list B) :
  Forall2 (fun x y => f x = Ok y) l out -> mapM f l = Ok out.
Proof.
  induction 1 as [|x y l out Hxy _ IH]; simpl.
  - reflexivity.
  - now rewrite Hxy, IH.
Qed.

Lemma verdict_ids_of_items (w : World) (items : list pyval)
    (fcs : list LegalFactCheck.t) :
  mapM (fact_check_of_item w) items = Ok fcs ->
  mapM (item_id w) items = Ok (map LegalFactCheck.sentence_id fcs).
Proof.
  intros H; apply mapM_Forall2 in H. apply Forall2_mapM.
  induction H as [|x y l out Hxy _ IH]; cbn [map]; constructor.
  - now apply fact_check_of_item_id.
  - exact IH.
Qed.

(** A report of a run is the fall-back report, or it was read from the
    answer the judge gave to the payload of the run. *)
Lemma verify_legal_blog_cases
    (w : World) (self : LegalFactCheckService.t) (content blog_id : string)
    (r : LegalVerificationReport.t) :
  verify_legal_blog w self content blog_id = Ok r ->
  r = _generate_empty_report w blog_id
        (len (LegalClaimExtractor.extract_claims w content))
  \/ exists payload answer,
       run_payload w self content = Ok payload /\
       judge_oracle w (PList payload) = Ok answer /\
       report_of_answer w blog_id
         (LegalClaimExtractor.extract_claims w content) answer = Ok r.
Proof.
  rewrite verify_legal_blog_unfold.
  destruct (LegalClaimExtractor.extract_claims w content) as [|c cs] eqn:E.
  - intros H; inversion H; now left.
  - destruct (run_payload w self content) as [payload|e];
      cbn [bind]; [|discriminate].
    intros H; inversion H; subst; clear H.
    destruct (adjudicate_cases w blog_id (c :: cs) payload)
      as [H|[answer [Hj Hr]]].
    + now left.
    + right; exists payload, answer; repeat split; assumption.
Qed.

(** C5 (as stated) fails: with claims 1 and 2 extracted in that order and
    a judge that lists claim 2 first, the verdicts of the report come in the
    order 2, 1. *)
Lemma C5_judge_order_counterexample :
  map LegalClaim.sentence_id
    (LegalClaimExtractor.extract_claims Scenario.judge_lists_backwards "text")
  = [1; 2]
  /\ exists r,
       verify_legal_blog Scenario.judge_lists_backwards Scenario.service_full
         "text" "blog" = Ok r /\
       verdict_ids r = [2; 1] /\
       ~ Sorted Z.le (verdict_ids r).
Proof.
  split; [reflexivity|].
  eexists; split; [reflexivity|]; split; [reflexivity|].
  intros H; cbn in H.
  inversion H as [|a l _ Hd]; subst.
  inversion Hd as [|b l' Hle]; subst. lia.
Qed.

(** C5 (as amended).  The verdicts of a report come in the order in which
    the judge lists its per-claim results: the k-th verdict is read from
    the k-th entry of the judge's [fact_checks], and carries its
    identifier.  The order owes nothing to the gathering stage, whose
    results reach the judge in claim order. *)
Theorem C5_verdicts_follow_judge_order
    (w : World) (self : LegalFactCheckService.t) (content blog_id : string)
    (r : LegalVerificationReport.t) :
  verify_legal_blog w self content blog_id = Ok r ->
  LegalVerificationReport.fact_checks r = []
  \/ exists payload answer items,
       run_payload w self content = Ok payload /\
       judge_oracle w (PList payload) = Ok answer /\
       listed answer = Ok items /\
       Forall2 (fun item fc => fact_check_of_item w item = Ok fc)
         items (LegalVerificationReport.fact_checks r) /\
       mapM (item_id w) items = Ok (verdict_ids r).
Proof.
  intros H; apply verify_legal_blog_cases in H.
  destruct H as [->|[payload [answer [Hp [Hj Hr]]]]]; [now left|right].
  apply report_of_answer_inv in Hr.
  destruct Hr as [items [raw [Hl [Hm _]]]].
  exists payload, answer, items; repeat split; try assumption.
  - now apply mapM_Forall2.
  - now apply verdict_ids_of_items.
Qed.

Lemma C5_judge_order_witness :
  exists r,
    verify_legal_blog Scenario.judge_lists_backwards Scenario.service_full
      "text" "blog" = Ok r /\
    (LegalVerificationReport.fact_checks r = []
     \/ exists payload answer items,
          run_payload Scenario.judge_lists_backwards Scenario.service_full
            "text" = Ok payload /\
          judge_oracle Scenario.judge_lists_backwards (PList payload)
          = Ok answer /\
          listed answer = Ok items /\
          Forall2
            (fun item fc =>
               fact_check_of_item Scenario.judge_lists_backwards item = Ok fc)
            items (LegalVerificationReport.fact_checks r) /\
          mapM (item_id Scenario.judge_lists_backwards) items
          = Ok (verdict_ids r)).
Proof.
  eexists; split; [reflexivity|].
  apply (C5_verdicts_follow_judge_order Scenario.judge_lists_backwards
           Scenario.service_full "text" "blog").
  reflexivity.
Defined.

(** The number of verdicts of a report read from an answer of the judge is
    the number of per-claim results the answer lists. *)
Lemma verdict_count_of_answer
    (w : World) (blog_id : string) (claims : list LegalClaim.t)
    (answer : pyval) (r : LegalVerificationReport.t) :
  report_of_answer w blog_id claims answer = Ok r ->
  exists items,
    listed answer = Ok items /\
    length (LegalVerificationReport.fact_checks r) = length items.
Proof.
  intros H; apply report_of_answer_inv in H.
  destruct H as [items [raw [Hl [Hm _]]]].
  exists items; split; [assumption|]. now apply mapM_length in Hm.
Qed.







(* ===================================================================== *)
(** ** Further properties: construction and clients                       *)
(* ===================================================================== *)

(** X1.  [__init__] succeeds exactly when the four required keys are
    non-empty; the academic key never makes it fail. *)
Theorem X1_init_succeeds_iff_required_keys
    (google_api_key cse_id gemini_api_key indian_kanoon_key llm_model : string)
    (academic_key : option string) :
  (exists svc,
     LegalFactCheckService.init google_api_key cse_id gemini_api_key
       indian_kanoon_key academic_key llm_model = Ok svc)
  <-> (google_api_key <> "" /\ cse_id <> "" /\ gemini_api_key <> "" /\
       indian_kanoon_key <> "").
Proof.
  unfold LegalFactCheckService.init, Clients.GoogleFactCheckClient,
    Clients.GoogleCustomSearchClient, Clients.IndianKanoonClient,
    Clients.SemanticScholarClient, Clients.init, str_empty.
  destruct (String.eqb_spec google_api_key "") as [->|Hg].
  { split; [intros [svc H]; discriminate H | intros [H _]; now elim H]. }
  destruct (String.eqb_spec cse_id "") as [->|Hc].
  { split; [intros [svc H]; discriminate H | intros [_ [H _]]; now elim H]. }
  destruct (String.eqb_spec gemini_api_key "") as [->|Hm].
  { split; [intros [svc H]; discriminate H | intros [_ [_ [H _]]]; now elim H]. }
  destruct (String.eqb_spec indian_kanoon_key "") as [->|Hk].
  { split; [intros [svc H]; discriminate H | intros [_ [_ [_ H]]]; now elim H]. }
  split; [tauto|intros _].
  cbn.
  destruct academic_key as [a|]; [|cbn; eauto].
  destruct (String.eqb_spec a "") as [->|Ha]; cbn; eauto.
Qed.

(** What [__init__] builds: every client keeps its key, no session is open,
    and an academic client exists exactly when a non-empty academic key was
    given. *)
Lemma init_inv
    (google_api_key cse_id gemini_api_key indian_kanoon_key llm_model : string)
    (academic_key : option string) (svc : LegalFactCheckService.t) :
  LegalFactCheckService.init google_api_key cse_id gemini_api_key
    indian_kanoon_key academic_key llm_model = Ok svc ->
  Clients.api_key (fact_check_client svc) = google_api_key /\
  Clients.api_key (Clients.cs_base (news_client svc)) = google_api_key /\
  Clients.cse_id (news_client svc) = cse_id /\
  Clients.api_key (indian_kanoon_client svc) = indian_kanoon_key /\
  (forall c, In c (clients_of svc) -> Clients.session c = false) /\
  match academic_key with
  | Some k =>
      if str_empty k then academic_client svc = None
      else exists c, academic_client svc = Some c /\ Clients.api_key c = k
  | None => academic_client svc = None
  end.
Proof.
  unfold LegalFactCheckService.init, Clients.GoogleFactCheckClient,
    Clients.GoogleCustomSearchClient, Clients.IndianKanoonClient,
    Clients.SemanticScholarClient, Clients.init, str_empty.
  destruct (String.eqb_spec google_api_key ""); [discriminate|].
  destruct (String.eqb_spec cse_id ""); [discriminate|].
  destruct (String.eqb_spec gemini_api_key ""); [discriminate|].
  destruct (String.eqb_spec indian_kanoon_key ""); [discriminate|].
  cbn.
  destruct academic_key as [a|].
  - destruct (String.eqb_spec a ""); cbn; intros H; inversion H; subst;
      cbn; repeat split; eauto;
      unfold clients_of; cbn; intuition (subst; reflexivity).
  - cbn; intros H; inversion H; subst; cbn; repeat split;
      unfold clients_of; cbn; intuition (subst; reflexivity).
Qed.

(** X2.  A client as constructed comes back unchanged from its
    [async with] block: entering opens the session, leaving closes it, and
    key and URL are untouched. *)
Theorem X2_client_block_round_trip (key url : string) (c : Clients.BaseAPIClient) :
  Clients.init key url = Ok c ->
  Clients.session (Clients.aenter c) = true /\
  Clients.aexit (Clients.aenter c) = c /\
  Clients.api_key c = key /\ Clients.base_url c = url.
Proof.
  unfold Clients.init.
  destruct (str_empty key); [discriminate|].
  destruct (str_empty url || negb (String.prefix "http" url))%bool;
    [discriminate|].
  intros H; inversion H; subst; cbn; repeat split.
Qed.

Lemma X2_client_block_witness :
  Clients.session
    (Clients.aenter (indian_kanoon_client Scenario.service_full)) = true /\
  Clients.aexit (Clients.aenter (indian_kanoon_client Scenario.service_full))
  = indian_kanoon_client Scenario.service_full /\
  Clients.api_key (indian_kanoon_client Scenario.service_full) = "ik-key" /\
  Clients.base_url (indian_kanoon_client Scenario.service_full)
  = "https://api.indiankanoon.org".
Proof.
  apply (X2_client_block_round_trip "ik-key" "https://api.indiankanoon.org").
  reflexivity.
Defined.

(** X3.  A client is refused at construction when its key is empty or its
    URL does not start with [http]. *)
Theorem X3_client_construction_checks (key url : string) :
  (exists c, Clients.init key url = Ok c)
  <-> (key <> "" /\ String.prefix "http" url = true).
Proof.
  unfold Clients.init, str_empty.
  destruct (String.eqb_spec key "") as [->|Hk].
  { split; [intros [c H]; discriminate H | intros [H _]; now elim H]. }
  destruct (String.eqb_spec url "") as [->|Hu].
  { cbn; split; [intros [c H]; discriminate H | intros [_ H]; discriminate H]. }
  cbn [orb].
  destruct (String.prefix "http" url); cbn.
  - split; eauto.
  - split; [intros [c H]; discriminate H | intros [_ H]; discriminate H].
Qed.

(** Gathering when no request of the service's clients can succeed. *)
Lemma gather_empty_when_requests_raise
    (w : World) (self : LegalFactCheckService.t) (claim : LegalClaim.t) :
  (forall c endpoint params headers,
     In c (clients_of self) ->
     exists e, Clients._make_request w c endpoint params headers = Raise e) ->
  exists ev,
    snd (_gather_evidence_for_claim w self claim) = Ok ev /\
    VerificationEvidence.indian_kanoon_results ev = PList [] /\
    VerificationEvidence.news_results ev = PList [] /\
    VerificationEvidence.google_fact_checks ev = PList [] /\
    VerificationEvidence.academic_results ev = PList [].
Proof.
  intros Hr.
  assert (K : snd (fetch_kanoon w self claim) = Ok (PList [])).
  { unfold fetch_kanoon, Clients.IndianKanoonClient_search.
    destruct (str_empty _); [reflexivity|].
    match goal with
    | |- context [Clients._make_request w ?c ?ep ?ps ?hs] =>
        destruct (Hr c ep ps hs) as [e He];
        [unfold clients_of; simpl; tauto | rewrite He]
    end; reflexivity. }
  assert (N : snd (fetch_news w self claim) = Ok (PList [])).
  { unfold fetch_news, Clients.GoogleCustomSearchClient_search.
    match goal with
    | |- context [Clients._make_request w ?c ?ep ?ps ?hs] =>
        destruct (Hr c ep ps hs) as [e He];
        [unfold clients_of; simpl; tauto | rewrite He]
    end; reflexivity. }
  assert (F : snd (fetch_fact w self claim) = Ok (PList [])).
  { unfold fetch_fact, Clients.GoogleFactCheckClient_search.
    match goal with
    | |- context [Clients._make_request w ?c ?ep ?ps ?hs] =>
        destruct (Hr c ep ps hs) as [e He];
        [unfold clients_of; simpl; tauto | rewrite He]
    end; reflexivity. }
  assert (A : snd (fetch_academic w self claim) = Ok (PList [])).
  { unfold fetch_academic; destruct (academic_client self) as [c|] eqn:Ec;
      [|reflexivity].
    unfold Clients.SemanticScholarClient_search.
    match goal with
    | |- context [Clients._make_request w ?c ?ep ?ps ?hs] =>
        destruct (Hr c ep ps hs) as [e He];
        [unfold clients_of; rewrite Ec; simpl; tauto | rewrite He]
    end; reflexivity. }
  unfold _gather_evidence_for_claim, routing_tasks, asyncio_gather.
  cbn [app map snd fst mapM].
  rewrite N.
  destruct (str_in _ ["case_law"; "statute"; "legal_fact"]);
  destruct (str_in _ ["date_fact"; "general_fact"; "legal_fact"]);
  destruct (str_in _ ["case_law"; "statute"]);
  rewrite ?K, ?F, ?A; cbn; eexists; repeat split; reflexivity.
Qed.

(** X4.  The gatherer used on a service as constructed, outside the client
    block of [verify_legal_blog], returns four empty fields for every claim
    whatever the sources would answer: no session is open, every request
    is refused before it reaches the network, and the refusal is
    absorbed. *)
Theorem X4_gather_outside_client_block_is_empty
    (w : World)
    (google_api_key cse_id gemini_api_key indian_kanoon_key llm_model : string)
    (academic_key : option string) (svc : LegalFactCheckService.t)
    (claim : LegalClaim.t) :
  LegalFactCheckService.init google_api_key cse_id gemini_api_key
    indian_kanoon_key academic_key llm_model = Ok svc ->
  exists ev,
    snd (_gather_evidence_for_claim w svc claim) = Ok ev /\
    VerificationEvidence.indian_kanoon_results ev = PList [] /\
    VerificationEvidence.news_results ev = PList [] /\
    VerificationEvidence.google_fact_checks ev = PList [] /\
    VerificationEvidence.academic_results ev = PList [].
Proof.
  intros H; apply init_inv in H.
  destruct H as [_ [_ [_ [_ [Hs _]]]]].
  apply gather_empty_when_requests_raise.
  intros c endpoint params headers Hc.
  unfold Clients._make_request. rewrite (Hs c Hc). cbn. eauto.
Qed.

Lemma X4_gather_outside_client_block_witness :
  exists ev,
    snd (_gather_evidence_for_claim
           (Scenario.world Scenario.one_hit Scenario.silent Scenario.silent)
           Scenario.service_full (Scenario.claim_of 1 "legal_fact")) = Ok ev /\
    VerificationEvidence.indian_kanoon_results ev = PList [] /\
    VerificationEvidence.news_results ev = PList [] /\
    VerificationEvidence.google_fact_checks ev = PList [] /\
    VerificationEvidence.academic_results ev = PList [].
Proof.
  apply (X4_gather_outside_client_block_is_empty
           (Scenario.world Scenario.one_hit Scenario.silent Scenario.silent)
           "g-key" "cse" "gemini-key" "ik-key" "gemini-2.5-flash-lite"
           (Some "s2-key") Scenario.service_full
           (Scenario.claim_of 1 "legal_fact")).
  reflexivity.
Defined.

(** X5.  The legal-database client refuses an empty query before any
    request is made, so a claim whose search query is empty gets no
    legal-database evidence, whatever the source would answer; the other
    clients have no such check. *)
Theorem X5_empty_query_gets_no_legal_evidence
    (w : World) (self : LegalFactCheckService.t) (claim : LegalClaim.t) :
  LegalClaim.search_query claim = "" ->
  Clients.IndianKanoonClient_search w (indian_kanoon_client self)
    (LegalClaim.search_query claim) 0
  = Raise (ValueError "Search query cannot be empty.")
  /\ exists ev,
       snd (_gather_evidence_for_claim w self claim) = Ok ev /\
       VerificationEvidence.indian_kanoon_results ev = PList [].
Proof.
  intros Hq. split.
  - unfold Clients.IndianKanoonClient_search. now rewrite Hq.
  - assert (K : snd (fetch_kanoon w self claim) = Ok (PList [])).
    { unfold fetch_kanoon, Clients.IndianKanoonClient_search.
      rewrite Hq. reflexivity. }
    unfold _gather_evidence_for_claim, routing_tasks, asyncio_gather.
    cbn [app map snd fst mapM].
    destruct (fetch_news_returns w self claim) as [n Hn]; rewrite Hn.
    destruct (str_in _ ["case_law"; "statute"; "legal_fact"]);
      [rewrite K|];
    (destruct (str_in _ ["date_fact"; "general_fact"; "legal_fact"]);
      [destruct (fetch_fact_returns w self claim) as [f Hf]; rewrite Hf|]);
    (destruct (str_in _ ["case_law"; "statute"]);
      [destruct (fetch_academic_returns w self claim) as [a Ha]; rewrite Ha|]);
    cbn; eexists; split; reflexivity.
Qed.

(* ===================================================================== *)
(** ** Further properties: claim extraction                               *)
(* ===================================================================== *)

Lemma mapM_raise {A B : Type} (f : A -> exc B) (l : list A) (x : A) (e : exn) :
  In x l -> f x = Raise e -> exists e', mapM f l = Raise e'.
Proof.
  induction l as [|y ys IH]; simpl; intros Hin Hx; [contradiction|].
  destruct Hin as [->|Hin].
  - rewrite Hx; cbn; eauto.
  - destruct (f y); cbn; [|eauto].
    destruct (IH Hin Hx) as [e' ->]; cbn; eauto.
Qed.

(** X6.  When the extraction oracle fails, or answers with something else
    than a JSON object, no claim is extracted and the pipeline returns the
    zero-claim fall-back report instead of raising. *)
Theorem X6_extraction_failure_gives_zero_claim_report
    (w : World) (self : LegalFactCheckService.t) (content blog_id : string) :
  (forall d, extraction_oracle w content <> Ok (PDict d)) ->
  LegalClaimExtractor.extract_claims w content = [] /\
  verify_legal_blog w self content blog_id
  = Ok (_generate_empty_report w blog_id 0).
Proof.
  intros H.
  assert (E : LegalClaimExtractor.extract_claims w content = []).
  { unfold LegalClaimExtractor.extract_claims.
    destruct (extraction_oracle w content) as [data|e]; [|reflexivity].
    destruct data; try reflexivity. now elim (H d). }
  split; [exact E|].
  unfold verify_legal_blog. now rewrite E.
Qed.

Lemma X6_extraction_failure_witness :
  LegalClaimExtractor.extract_claims
    (Scenario.world Scenario.one_hit Scenario.silent Scenario.silent) "text"
  = [] /\
  verify_legal_blog
    (Scenario.world Scenario.one_hit Scenario.silent Scenario.silent)
    Scenario.service_full "text" "blog"
  = Ok (_generate_empty_report
          (Scenario.world Scenario.one_hit Scenario.silent Scenario.silent)
          "blog" 0).
Proof.
  apply (X6_extraction_failure_gives_zero_claim_report
           (Scenario.world Scenario.one_hit Scenario.silent Scenario.silent)
           Scenario.service_full "text" "blog").
  intros d H; discriminate H.
Defined.

(** X7.  Extraction is all or nothing: one item of the oracle's list that
    cannot be read into a claim makes the extractor drop every claim. *)
Theorem X7_one_bad_item_drops_every_claim
    (w : World) (content : string) (data claims_list item : pyval)
    (items : list pyval) (e : exn) :
  extraction_oracle w content = Ok data ->
  get data "claims" (PList []) = Ok claims_list ->
  iter claims_list = Ok items ->
  In item items ->
  LegalClaimExtractor.claim_of_item w item = Raise e ->
  LegalClaimExtractor.extract_claims w content = [].
Proof.
  intros Ho Hg Hi Hin Hbad.
  unfold LegalClaimExtractor.extract_claims.
  rewrite Ho; cbn [bind]. rewrite Hg; cbn [bind]. rewrite Hi; cbn [bind].
  destruct (mapM_raise _ _ _ _ Hin Hbad) as [e' ->]. reflexivity.
Qed.

Lemma X7_one_bad_item_witness :
  LegalClaimExtractor.extract_claims
    (Scenario.world Scenario.unreachable
       (Scenario.extraction_of
          [Scenario.claim_item 1 "statute";
           PDict [("sentence_id", PInt 2); ("claim_type", PNone)]])
       Scenario.silent) "text"
  = [].
Proof.
  apply (X7_one_bad_item_drops_every_claim
           (Scenario.world Scenario.unreachable
              (Scenario.extraction_of
                 [Scenario.claim_item 1 "statute";
                  PDict [("sentence_id", PInt 2); ("claim_type", PNone)]])
              Scenario.silent)
           "text"
           (PDict [("claims",
                    PList [Scenario.claim_item 1 "statute";
                           PDict [("sentence_id", PInt 2);
                                  ("claim_type", PNone)]])])
           (PList [Scenario.claim_item 1 "statute";
                   PDict [("sentence_id", PInt 2); ("claim_type", PNone)]])
           (PDict [("sentence_id", PInt 2); ("claim_type", PNone)])
           [Scenario.claim_item 1 "statute";
            PDict [("sentence_id", PInt 2); ("claim_type", PNone)]]
           ValidationError).
  - reflexivity.
  - reflexivity.
  - reflexivity.
  - simpl; tauto.
  - reflexivity.
Defined.

(** X8.  Whenever claims are extracted, there is one per item of the
    oracle's list, in the order of the list. *)
Theorem X8_extracted_claims_follow_the_oracle_list
    (w : World) (content : string) :
  LegalClaimExtractor.extract_claims w content <> [] ->
  exists data claims_list items,
    extraction_oracle w content = Ok data /\
    get data "claims" (PList []) = Ok claims_list /\
    iter claims_list = Ok items /\
    Forall2 (fun item c => LegalClaimExtractor.claim_of_item w item = Ok c)
      items (LegalClaimExtractor.extract_claims w content) /\
    length (LegalClaimExtractor.extract_claims w content) = length items.
Proof.
  unfold LegalClaimExtractor.extract_claims.
  destruct (extraction_oracle w content) as [data|e] eqn:Eo;
    cbn [bind try_except]; [|intros H; now elim H].
  destruct (get data "claims" (PList [])) as [cl|e] eqn:Eg;
    cbn [bind try_except]; [|intros H; now elim H].
  destruct (iter cl) as [items|e] eqn:Ei; cbn [bind try_except];
    [|intros H; now elim H].
  destruct (mapM (LegalClaimExtractor.claim_of_item w) items) as [cs|e] eqn:E;
    cbn [try_except]; [|intros H; now elim H].
  intros _. exists data, cl, items.
  split; [reflexivity|]. split; [exact Eg|]. split; [exact Ei|]. split.
  - now apply mapM_Forall2.
  - now apply mapM_length in E.
Qed.

Lemma X8_extracted_claims_witness :
  exists data claims_list items,
    extraction_oracle Scenario.five_claims_judge_down "text" = Ok data /\
    get data "claims" (PList []) = Ok claims_list /\
    iter claims_list = Ok items /\
    Forall2
      (fun item c =>
         LegalClaimExtractor.claim_of_item Scenario.five_claims_judge_down item
         = Ok c)
      items
      (LegalClaimExtractor.extract_claims Scenario.five_claims_judge_down
         "text") /\
    length (LegalClaimExtractor.extract_claims Scenario.five_claims_judge_down
              "text") = length items.
Proof.
  apply (X8_extracted_claims_follow_the_oracle_list
           Scenario.five_claims_judge_down "text").
  discriminate.
Defined.

(** X9.  The defaults of an extracted claim: a missing category is
    [legal_fact], a missing identifier is 0, a missing search query is the
    sentence text; every extracted claim requires verification, has
    confidence 1.0, and a location made of ["id_"] and its raw
    identifier. *)
Theorem X9_extracted_claim_defaults
    (w : World) (d : list (string * pyval)) (c : LegalClaim.t) :
  LegalClaimExtractor.claim_of_item w (PDict d) = Ok c ->
  (dict_lookup "claim_type" d = None ->
   LegalClaim.claim_type c = "legal_fact") /\
  (dict_lookup "sentence_id" d = None -> LegalClaim.sentence_id c = 0) /\
  (dict_lookup "search_query" d = None ->
   LegalClaim.search_query c = LegalClaim.sentence_text c) /\
  LegalClaim.requires_verification c = true /\
  LegalClaim.confidence c = 1%float /\
  LegalClaim.location c
  = "id_" ++ format w (match dict_lookup "sentence_id" d with
                       | Some v => v
                       | None => PNone
                       end).
Proof.
  unfold LegalClaimExtractor.claim_of_item, get1, get.
  cbn [bind]. intros H. do 4 bind_inv H.
  inversion H; subst; clear H; cbn.
  repeat split; intros Hn; rewrite Hn in *.
  - cbn in E1. congruence.
  - cbn in E. congruence.
  - destruct (dict_lookup "sentence_text" d) as [v|]; cbn in E0, E2;
      congruence.
Qed.

Lemma X9_extracted_claim_witness :
  exists c,
    LegalClaimExtractor.claim_of_item Scenario.nothing_to_verify
      (PDict [("sentence_text", PStr "Article 21 protects life.")]) = Ok c /\
    LegalClaim.claim_type c = "legal_fact" /\
    LegalClaim.sentence_id c = 0 /\
    LegalClaim.search_query c = "Article 21 protects life.".
Proof.
  eexists; split; [reflexivity|].
  pose proof (X9_extracted_claim_defaults Scenario.nothing_to_verify
                [("sentence_text", PStr "Article 21 protects life.")]
                _ eq_refl) as [H1 [H2 [H3 _]]].
  split; [apply H1; reflexivity|].
  split; [apply H2; reflexivity|].
  rewrite H3; reflexivity.
Defined.

(** X10.  An item with neither [search_query] nor [sentence_text] is
    refused, although a missing [sentence_text] alone is not: the default
    of the query is the absent text, that is [None], which is no string. *)
Theorem X10_item_without_query_and_text_is_refused
    (w : World) (d : list (string * pyval)) :
  dict_lookup "search_query" d = None ->
  dict_lookup "sentence_text" d = None ->
  exists e, LegalClaimExtractor.claim_of_item w (PDict d) = Raise e.
Proof.
  intros Hq Ht.
  unfold LegalClaimExtractor.claim_of_item, get1, get.
  cbn [bind]. rewrite Hq, Ht.
  destruct (Pydantic.validate_int _ _); cbn [bind]; [|eauto].
  cbn [Pydantic.validate_str bind].
  destruct (Pydantic.validate_str _); cbn [bind]; eauto.
Qed.

Lemma X10_item_without_query_and_text_witness :
  exists e,
    LegalClaimExtractor.claim_of_item Scenario.nothing_to_verify
      (PDict [("sentence_id", PInt 4); ("claim_type", PStr "statute")])
    = Raise e.
Proof.
  apply (X10_item_without_query_and_text_is_refused
           Scenario.nothing_to_verify
           [("sentence_id", PInt 4); ("claim_type", PStr "statute")]);
    reflexivity.
Defined.

(* ===================================================================== *)
(** ** Further properties: the payload sent to the judge                  *)
(* ===================================================================== *)

Lemma substring0_length (n : nat) (s : string) :
  String.length (substring 0 n s) = Nat.min n (String.length s).
Proof.
  revert s; induction n as [|n IH]; intros [|c s]; simpl; try reflexivity.
  now rewrite IH.
Qed.

Lemma substring0_short (n : nat) (s : string) :
  (String.length s <= n)%nat -> substring 0 n s = s.
Proof.
  revert s; induction n as [|n IH]; intros [|c s]; simpl; intros H;
    try reflexivity; try lia.
  rewrite IH by lia. reflexivity.
Qed.

Lemma chars_length (s : string) : length (chars s) = String.length s.
Proof. induction s as [|c s IH]; simpl; [reflexivity | now rewrite IH]. Qed.

Lemma slice_then_iter_length (n : nat) (v a : pyval) (items : list pyval) :
  slice_to n v = Ok a -> iter a = Ok items ->
  (length items <= n)%nat /\
  (forall l, v = PList l -> length items = Nat.min n (length l)).
Proof.
  destruct v; simpl; try discriminate; intros H1 H2;
    injection H1 as <-; simpl in H2; injection H2 as <-.
  - split; [|discriminate].
    rewrite chars_length, substring0_length. lia.
  - split; [rewrite length_firstn; lia|].
    intros l' Hl; injection Hl as ->. apply length_firstn.
Qed.

Lemma comprehension_inv (f : pyval -> exc pyval) (v r : pyval) :
  comprehension f v = Ok r ->
  exists items out,
    iter v = Ok items /\ mapM f items = Ok out /\ r = PList out /\
    length out = length items.
Proof.
  unfold comprehension; intros H. do 2 bind_inv H.
  inversion H; subst. eexists _, _; repeat split; try eassumption.
  now apply mapM_length in E0.
Qed.

Lemma slice_then_iter_list (n : nat) (l : list pyval) (a : pyval)
    (items : list pyval) :
  slice_to n (PList l) = Ok a -> iter a = Ok items -> items = firstn n l.
Proof.
  unfold slice_to; intros H1 H2. injection H1 as <-.
  unfold iter in H2. now injection H2 as <-.
Qed.

(** X11.  In the payload the legal-database evidence of a claim is made of
    its first three records, in their order, and of no other; the
    fact-check, web and academic evidence have one entry per record, in
    the order of the records. *)
Theorem X11_payload_keeps_three_legal_records
    (w : World) (ev : VerificationEvidence.t) (se : pyval) :
  simplified_evidence w ev = Ok se ->
  exists ik fc ws ac,
    se = PDict [("indian_kanoon", PList ik); ("fact_check_db", PList fc);
                ("web_search", PList ws); ("academic", PList ac)] /\
    (length ik <= 3)%nat /\
    (forall l, VerificationEvidence.indian_kanoon_results ev = PList l ->
               Forall2 (fun x e => kanoon_entry w x = Ok e) (firstn 3 l) ik) /\
    (forall l, VerificationEvidence.google_fact_checks ev = PList l ->
               Forall2 (fun x e => fact_check_entry x = Ok e) l fc) /\
    (forall l, VerificationEvidence.news_results ev = PList l ->
               Forall2 (fun x e => web_entry x = Ok e) l ws) /\
    (forall l, VerificationEvidence.academic_results ev = PList l ->
               Forall2 (fun x e => academic_entry x = Ok e) l ac).
Proof.
  unfold simplified_evidence; intros H.
  bind_inv H. rename E into Es.
  bind_inv H. apply comprehension_inv in E.
  destruct E as [ki [ko [Hki [Mk [-> Lk]]]]].
  bind_inv H. apply comprehension_inv in E.
  destruct E as [fi [fo [Hfi [Mf [-> Lf]]]]].
  bind_inv H. apply comprehension_inv in E.
  destruct E as [wi [wo [Hwi [Mw [-> Lw]]]]].
  bind_inv H. apply comprehension_inv in E.
  destruct E as [ai [ao [Hai [Ma [-> La]]]]].
  inversion H; subst; clear H.
  exists ko, fo, wo, ao. split; [reflexivity|].
  split; [|split; [|split; [|split]]].
  - rewrite Lk. apply (slice_then_iter_length _ _ _ _ Es Hki).
  - intros l Hl. rewrite Hl in Es.
    rewrite <- (slice_then_iter_list _ _ _ _ Es Hki).
    now apply mapM_Forall2.
  - intros l Hl. rewrite Hl in Hfi. unfold iter in Hfi.
    injection Hfi as <-. now apply mapM_Forall2.
  - intros l Hl. rewrite Hl in Hwi. unfold iter in Hwi.
    injection Hwi as <-. now apply mapM_Forall2.
  - intros l Hl. rewrite Hl in Hai. unfold iter in Hai.
    injection Hai as <-. now apply mapM_Forall2.
Qed.

Lemma X11_payload_witness :
  exists ik fc ws ac,
    simplified_evidence Scenario.nothing_to_verify Scenario.five_legal_records
    = Ok (PDict [("indian_kanoon", PList ik); ("fact_check_db", PList fc);
                 ("web_search", PList ws); ("academic", PList ac)]) /\
    Forall2 (fun x e => kanoon_entry Scenario.nothing_to_verify x = Ok e)
      [PDict [("tid", PStr "11")]; PDict [("tid", PStr "12")];
       PDict [("tid", PStr "13")]]
      ik.
Proof.
  destruct (X11_payload_keeps_three_legal_records
              Scenario.nothing_to_verify Scenario.five_legal_records
              _ eq_refl) as [ik [fc [ws [ac [H1 [_ [H3 _]]]]]]].
  exists ik, fc, ws, ac; split.
  - rewrite <- H1. reflexivity.
  - exact (H3 _ eq_refl).
Defined.

(** The three entries of that payload are those of records 11, 12 and 13,
    out of 11 to 15. *)
Lemma five_legal_records_payload :
  simplified_evidence Scenario.nothing_to_verify Scenario.five_legal_records
  = Ok (PDict
          [("indian_kanoon",
            PList
              (map (fun t =>
                      PDict [("title", PNone); ("headline", PNone);
                             ("doc_id", PStr t); ("source", PNone);
                             ("url",
                              PStr ("https://indiankanoon.org/doc/" ++ t
                                    ++ "/"))])
                 ["11"; "12"; "13"]));
           ("fact_check_db", PList []); ("web_search", PList []);
           ("academic", PList [])]).
Proof. reflexivity. Qed.

(** X12.  The snippet of a web record is cut to its first 200 characters
    in the payload, and kept whole when it is not longer; a record without
    snippet gets the empty one. *)
Theorem X12_web_snippet_is_cut_to_200
    (d : list (string * pyval)) (e : pyval) :
  web_entry (PDict d) = Ok e ->
  (forall s, dict_lookup "snippet" d = Some (PStr s) ->
     get1 e "snippet" = Ok (PStr (substring 0 200 s)) /\
     (String.length (substring 0 200 s) <= 200)%nat /\
     ((String.length s <= 200)%nat -> get1 e "snippet" = Ok (PStr s))) /\
  (dict_lookup "snippet" d = None -> get1 e "snippet" = Ok (PStr "")).
Proof.
  unfold web_entry, get1, get. cbn [bind]. intros H.
  bind_inv H. inversion H; subst; clear H.
  split.
  - intros s Hs. rewrite Hs in E. cbn in E. inversion E; subst.
    split; [reflexivity|]. split.
    + rewrite substring0_length. lia.
    + intros Hl. cbn. now rewrite substring0_short.
  - intros Hn. rewrite Hn in E. cbn in E. inversion E; subst. reflexivity.
Qed.

Lemma X12_web_snippet_witness :
  get1 (PDict [("title", PStr "News"); ("snippet", PStr "short text");
               ("link", PNone)]) "snippet"
  = Ok (PStr "short text").
Proof.
  refine (proj2 (proj2 (proj1
    (X12_web_snippet_is_cut_to_200
       [("title", PStr "News"); ("snippet", PStr "short text")]
       _ eq_refl) "short text" eq_refl)) _).
  simpl; lia.
Defined.

(** X13.  A fact-check record without [claimReview] goes into the payload
    with no rating and no URL; a record whose [claimReview] is the empty
    list makes the entry raise [IndexError]. *)
Theorem X13_fact_check_record_without_review
    (d : list (string * pyval)) :
  (dict_lookup "claimReview" d = None ->
   fact_check_entry (PDict d)
   = Ok (PDict [("verdict", PNone); ("url", PNone)])) /\
  (dict_lookup "claimReview" d = Some (PList []) ->
   fact_check_entry (PDict d) = Raise IndexError).
Proof.
  unfold fact_check_entry, get1, get; cbn [bind].
  split; intros H; rewrite H; reflexivity.
Qed.

Lemma X13_fact_check_record_witness :
  fact_check_entry (PDict [("text", PStr "a claim"); ("claimReview", PList [])])
  = Raise IndexError.
Proof.
  apply (X13_fact_check_record_without_review
           [("text", PStr "a claim"); ("claimReview", PList [])]).
  reflexivity.
Defined.

(** The entry of the payload that stands for a claim. *)
Lemma context_entry_inv
    (w : World) (claim : LegalClaim.t) (ev : VerificationEvidence.t)
    (entry : pyval) :
  context_entry w (claim, ev) = Ok entry ->
  get1 entry "sentence_id" = Ok (PInt (LegalClaim.sentence_id claim)) /\
  get1 entry "original_sentence"
  = Ok (PStr (LegalClaim.sentence_text claim)) /\
  get1 entry "claim_type" = Ok (PStr (LegalClaim.claim_type claim)).
Proof.
  unfold context_entry; intros H. bind_inv H.
  inversion H; subst. repeat split.
Qed.

Lemma Forall2_combine_fst {A B C : Type} (R : A -> C -> Prop)
    (l1 : list A) (l2 : list B) (out : list C) :
  length l1 = length l2 ->
  Forall2 (fun ab c => R (fst ab) c) (combine l1 l2) out ->
  Forall2 R l1 out.
Proof.
  revert l2 out; induction l1 as [|a l1 IH]; intros [|b l2] out Hl H;
    simpl in *; try discriminate.
  - inversion H; constructor.
  - inversion H; subst. constructor; [assumption|].
    apply (IH l2); [lia | assumption].
Qed.

(** X14.  When the payload of a run is built, it has one entry per
    extracted claim, in extraction order, and the entry carries the
    claim's identifier, sentence and category as extracted (the category
    is not lowercased there). *)
Theorem X14_payload_has_one_entry_per_claim
    (w : World) (self : LegalFactCheckService.t) (content : string)
    (payload : list pyval) :
  run_payload w self content = Ok payload ->
  Forall2
    (fun claim entry =>
       get1 entry "sentence_id" = Ok (PInt (LegalClaim.sentence_id claim)) /\
       get1 entry "original_sentence"
       = Ok (PStr (LegalClaim.sentence_text claim)) /\
       get1 entry "claim_type" = Ok (PStr (LegalClaim.claim_type claim)))
    (LegalClaimExtractor.extract_claims w content) payload.
Proof.
  unfold run_payload.
  destruct (gather_all_returns w self
              (LegalClaimExtractor.extract_claims w content))
    as [evs [Hg Hids]].
  rewrite Hg; cbn [bind]. unfold context_data. intros H.
  apply mapM_Forall2 in H.
  apply (Forall2_combine_fst _ _ evs).
  - apply (f_equal (@length Z)) in Hids. now rewrite !length_map in Hids.
  - clear Hg Hids.
    induction H as [|[c ev] entry l out Hx _ IH]; constructor.
    + cbn [fst]. now apply (context_entry_inv w c ev).
    + exact IH.
Qed.

Lemma X14_payload_witness :
  exists payload,
    run_payload Scenario.judge_in_order Scenario.service_full "text"
    = Ok payload /\
    Forall2
      (fun claim entry =>
         get1 entry "sentence_id"
         = Ok (PInt (LegalClaim.sentence_id claim)) /\
         get1 entry "original_sentence"
         = Ok (PStr (LegalClaim.sentence_text claim)) /\
         get1 entry "claim_type" = Ok (PStr (LegalClaim.claim_type claim)))
      (LegalClaimExtractor.extract_claims Scenario.judge_in_order "text")
      payload.
Proof.
  eexists; split; [reflexivity|].
  apply (X14_payload_has_one_entry_per_claim Scenario.judge_in_order
           Scenario.service_full "text").
  reflexivity.
Defined.

(* ===================================================================== *)
(** ** Further properties: the pipeline and its reports                   *)
(* ===================================================================== *)

(** The payload entry of a claim whose four evidence fields are empty. *)
Lemma context_entry_of_empty_evidence
    (w : World) (claim : LegalClaim.t) (ev : VerificationEvidence.t) :
  VerificationEvidence.indian_kanoon_results ev = PList [] ->
  VerificationEvidence.news_results ev = PList [] ->
  VerificationEvidence.google_fact_checks ev = PList [] ->
  VerificationEvidence.academic_results ev = PList [] ->
  exists entry, context_entry w (claim, ev) = Ok entry.
Proof.
  intros Hk Hn Hf Ha.
  unfold context_entry, simplified_evidence.
  rewrite Hk, Hn, Hf, Ha. cbn. eauto.
Qed.

Lemma mapM_total {A B : Type} (f : A -> exc B) (l : list A) :
  (forall x, In x l -> exists y, f x = Ok y) -> exists out, mapM f l = Ok out.
Proof.
  induction l as [|x xs IH]; simpl; intros H; [eauto|].
  destruct (H x (or_introl eq_refl)) as [y ->]; cbn.
  destruct IH as [ys ->]; [intros z Hz; apply H; now right|].
  cbn; eauto.
Qed.

Lemma mapM_id_In {A : Type} (l : list (exc A)) (out : list A) (y : A) :
  mapM (fun r => r) l = Ok out -> In y out -> In (Ok y) l.
Proof.
  revert out; induction l as [|x xs IH]; simpl; intros out H Hy.
  - inversion H; subst; contradiction.
  - do 2 bind_inv H. inversion H; subst.
    destruct Hy as [->|Hy]; [now left | right; eauto].
Qed.

(** X15.  When every request to every source fails, the run is not
    aborted: the pipeline still returns a report. *)
Theorem X15_total_outage_does_not_abort_the_run
    (w : World) (self : LegalFactCheckService.t) (content blog_id : string) :
  every_request_fails w ->
  exists r, verify_legal_blog w self content blog_id = Ok r.
Proof.
  intros Hdown. rewrite verify_legal_blog_unfold.
  destruct (LegalClaimExtractor.extract_claims w content) as [|c cs] eqn:Ec;
    [eauto|].
  enough (exists payload, run_payload w self content = Ok payload)
    as [payload ->] by (cbn; eauto).
  unfold run_payload. rewrite Ec.
  destruct (gather_all_returns w self (c :: cs)) as [evs [Hg _]].
  rewrite Hg; cbn [bind]. unfold context_data.
  apply mapM_total. intros [c' ev] Hin.
  apply in_combine_r in Hin.
  unfold gather_all, asyncio_gather in Hg; cbn [snd] in Hg.
  apply (mapM_id_In _ _ _ Hg) in Hin.
  rewrite map_map in Hin. apply in_map_iff in Hin.
  destruct Hin as [c'' [Hc'' _]].
  destruct (gather_when_every_source_fails w (enter_clients self) c'' Hdown)
    as [ev' [Hev' [Hk [Hn [Hf Ha]]]]].
  rewrite Hev' in Hc''. inversion Hc''; subst ev'.
  now apply context_entry_of_empty_evidence.
Qed.

Lemma X15_total_outage_witness :
  exists r,
    verify_legal_blog Scenario.judge_in_order Scenario.service_full
      "text" "blog" = Ok r.
Proof.
  apply (X15_total_outage_does_not_abort_the_run Scenario.judge_in_order
           Scenario.service_full "text" "blog").
  intros url params headers. eexists; reflexivity.
Defined.

(** X16.  Failures of the extraction oracle, of the sources and of the
    judge never surface from the pipeline.  Gathering always hands back
    the bundles; the pipeline raises an exception exactly when claims were
    extracted and compressing those bundles into the judge's payload
    raises it. *)
Theorem X16_pipeline_raises_only_from_the_payload
    (w : World) (self : LegalFactCheckService.t) (content blog_id : string) :
  exists evs,
    snd (gather_all w self (LegalClaimExtractor.extract_claims w content))
    = Ok evs /\
    forall e,
      verify_legal_blog w self content blog_id = Raise e
      <-> (LegalClaimExtractor.extract_claims w content <> [] /\
           context_data w (LegalClaimExtractor.extract_claims w content) evs
           = Raise e).
Proof.
  destruct (gather_all_returns w self
              (LegalClaimExtractor.extract_claims w content))
    as [evs [Hg _]].
  exists evs; split; [exact Hg|]. intros e.
  unfold verify_legal_blog, _generate_final_verdict_llm.
  destruct (LegalClaimExtractor.extract_claims w content) as [|c cs].
  - split; [discriminate | intros [H _]; now elim H].
  - rewrite Hg; cbn [bind].
    destruct (context_data w (c :: cs) evs) as [payload|e']; cbn [bind].
    + split; [discriminate | intros [_ H]; discriminate H].
    + split; [intros H; split; [discriminate|congruence]
             | intros [_ H]; congruence].
Qed.

(** The fields of a report read from an answer of the judge. *)
Lemma report_of_answer_fields
    (w : World) (blog_id : string) (claims : list LegalClaim.t)
    (d : list (string * pyval)) (r : LegalVerificationReport.t) :
  report_of_answer w blog_id claims (PDict d) = Ok r ->
  let field k default :=
    match dict_lookup k d with Some v => v | None => default end in
  Pydantic.validate_int (coerce w)
    (field "total_claims_extracted" (PInt (len claims)))
  = Ok (LegalVerificationReport.total_claims_extracted r) /\
  Pydantic.validate_int (coerce w)
    (field "verifiable_claims" (PInt (len claims)))
  = Ok (LegalVerificationReport.verifiable_claims r) /\
  Pydantic.validate_int (coerce w)
    (field "verified_claims"
       (PInt (len (LegalVerificationReport.fact_checks r))))
  = Ok (LegalVerificationReport.verified_claims r) /\
  Pydantic.validate_float (coerce w) (field "accuracy_score" (PFloat 0%float))
  = Ok (LegalVerificationReport.accuracy_score r) /\
  Pydantic.validate_dict_str_int (coerce w) (field "claims_breakdown" (PDict []))
  = Ok (LegalVerificationReport.claims_breakdown r) /\
  LegalVerificationReport.recommendations r = [] /\
  LegalVerificationReport.blog_id r = blog_id /\
  LegalVerificationReport.timestamp r = utcnow w.
Proof.
  unfold report_of_answer, LegalVerificationReport.make, get; cbn [bind].
  intros H. do 7 bind_inv H.
  inversion H; subst; cbn. repeat split; assumption.
Qed.

(** X17.  A count the judge leaves out of its answer is computed locally:
    the two totals are the number of extracted claims, the number of
    verified claims is the number of verdicts read, the accuracy is 0.0 and
    the breakdown is empty. *)
Theorem X17_counts_left_out_are_computed_locally
    (w : World) (blog_id : string) (claims : list LegalClaim.t)
    (d : list (string * pyval)) (r : LegalVerificationReport.t) :
  report_of_answer w blog_id claims (PDict d) = Ok r ->
  (dict_lookup "total_claims_extracted" d = None ->
   LegalVerificationReport.total_claims_extracted r = len claims) /\
  (dict_lookup "verifiable_claims" d = None ->
   LegalVerificationReport.verifiable_claims r = len claims) /\
  (dict_lookup "verified_claims" d = None ->
   LegalVerificationReport.verified_claims r
   = len (LegalVerificationReport.fact_checks r)) /\
  (dict_lookup "accuracy_score" d = None ->
   LegalVerificationReport.accuracy_score r = 0%float) /\
  (dict_lookup "claims_breakdown" d = None ->
   LegalVerificationReport.claims_breakdown r = []).
Proof.
  intros H; apply report_of_answer_fields in H; cbv zeta in H.
  destruct H as [H1 [H2 [H3 [H4 [H5 _]]]]].
  repeat split; intros Hn; rewrite Hn in *.
  - cbn in H1; congruence.
  - cbn in H2; congruence.
  - cbn in H3; congruence.
  - cbn in H4; congruence.
  - cbn in H5; congruence.
Qed.

Lemma X17_counts_witness :
  exists r,
    report_of_answer Scenario.judge_in_order "blog"
      (LegalClaimExtractor.extract_claims Scenario.judge_in_order "text")
      (PDict [("fact_checks", PList [Scenario.verdict_item 1])]) = Ok r /\
    LegalVerificationReport.total_claims_extracted r = 2 /\
    LegalVerificationReport.verified_claims r = 1.
Proof.
  eexists; split; [reflexivity|].
  pose proof (X17_counts_left_out_are_computed_locally
                Scenario.judge_in_order "blog"
                (LegalClaimExtractor.extract_claims Scenario.judge_in_order
                   "text")
                [("fact_checks", PList [Scenario.verdict_item 1])]
                _ eq_refl) as [H1 [_ [H3 _]]].
  split; [apply H1; reflexivity | apply H3; reflexivity].
Defined.



(** X19.  Reading the judge's answer is all or nothing: one entry of
    [fact_checks] that cannot be read into a verdict turns the whole report
    into the fall-back report, and the verdicts read before it are
    lost. *)
Theorem X19_one_bad_entry_degrades_the_report
    (w : World) (blog_id : string) (claims : list LegalClaim.t)
    (payload items : list pyval) (answer item : pyval) (e : exn) :
  judge_oracle w (PList payload) = Ok answer ->
  listed answer = Ok items ->
  In item items ->
  fact_check_of_item w item = Raise e ->
  adjudicate w blog_id claims payload
  = _generate_empty_report w blog_id (len claims).
Proof.
  intros Hj Hl Hin Hbad.
  unfold adjudicate, report_of_answer. rewrite Hj; cbn [bind].
  unfold listed in Hl.
  destruct (get answer "fact_checks" (PList [])) as [fcs|]; [|discriminate Hl].
  cbn [bind] in Hl |- *. rewrite Hl; cbn [bind].
  destruct (mapM_raise _ _ _ _ Hin Hbad) as [e' ->]. reflexivity.
Qed.

Lemma X19_one_bad_entry_witness :
  adjudicate
    (Scenario.world Scenario.unreachable Scenario.silent
       (Ok (PDict [("fact_checks",
                    PList [Scenario.verdict_item 1;
                           PDict [("sentence_id", PInt 2);
                                  ("verdict", PNone)]])])))
    "blog" [Scenario.claim_of 1 "statute"; Scenario.claim_of 2 "statute"] []
  = _generate_empty_report
      (Scenario.world Scenario.unreachable Scenario.silent
         (Ok (PDict [("fact_checks",
                      PList [Scenario.verdict_item 1;
                             PDict [("sentence_id", PInt 2);
                                    ("verdict", PNone)]])])))
      "blog" 2.
Proof.
  refine (X19_one_bad_entry_degrades_the_report
            (Scenario.world Scenario.unreachable Scenario.silent
               (Ok (PDict [("fact_checks",
                            PList [Scenario.verdict_item 1;
                                   PDict [("sentence_id", PInt 2);
                                          ("verdict", PNone)]])])))
            "blog"
            [Scenario.claim_of 1 "statute"; Scenario.claim_of 2 "statute"]
            []
            [Scenario.verdict_item 1;
             PDict [("sentence_id", PInt 2); ("verdict", PNone)]]
            (PDict [("fact_checks",
                     PList [Scenario.verdict_item 1;
                            PDict [("sentence_id", PInt 2);
                                   ("verdict", PNone)]])])
            (PDict [("sentence_id", PInt 2); ("verdict", PNone)])
            AttributeError _ _ _ _).
  - reflexivity.
  - reflexivity.
  - simpl; tauto.
  - reflexivity.
Defined.

(* ===================================================================== *)
(** ** Further properties: verdicts, reports and events                   *)
(* ===================================================================== *)

(** X20.  The verdict word of an entry is lowercased when it is read, as
    [str.lower] does it on a string of code points below 256; an entry
    whose verdict is given but is no string is refused with
    [AttributeError]. *)
Theorem X20_verdict_word_is_lowercased
    (w : World) (d : list (string * pyval)) :
  (forall s fc,
     dict_lookup "verdict" d = Some (PStr s) ->
     fact_check_of_item w (PDict d) = Ok fc ->
     LegalFactCheck.verdict fc = lower s) /\
  (forall v,
     dict_lookup "verdict" d = Some v ->
     (forall s, v <> PStr s) ->
     fact_check_of_item w (PDict d) = Raise AttributeError).
Proof.
  split.
  - intros s fc Hv.
    unfold fact_check_of_item, LegalFactCheck.make, get1, get.
    cbn [bind]. rewrite Hv. cbn [lower_method bind]. intros H.
    do 10 bind_inv H. inversion H; subst; clear H; cbn.
    cbn in E3. congruence.
  - intros v Hv Hn.
    unfold fact_check_of_item, get. cbn [bind]. rewrite Hv.
    destruct v; try reflexivity. now elim (Hn s).
Qed.

Lemma X20_verdict_word_witness :
  exists fc,
    fact_check_of_item Scenario.judge_in_order
      (PDict [("verdict", PStr (String (ascii_of_N 192) "CCURATE"));
              ("source", PStr "Indian Kanoon")])
    = Ok fc /\
    LegalFactCheck.verdict fc = String (ascii_of_N 224) "ccurate".
Proof.
  eexists; split; [reflexivity|].
  apply (proj1 (X20_verdict_word_is_lowercased Scenario.judge_in_order
                  [("verdict", PStr (String (ascii_of_N 192) "CCURATE"));
                   ("source", PStr "Indian Kanoon")])
           (String (ascii_of_N 192) "CCURATE")); reflexivity.
Defined.

(** X21.  A source name that is given but empty or null is replaced by
    ["Unknown"], and a sentence that is missing or empty is replaced by the
    claim text. *)
Theorem X21_empty_source_and_sentence_are_replaced
    (w : World) (d : list (string * pyval)) (fc : LegalFactCheck.t) :
  fact_check_of_item w (PDict d) = Ok fc ->
  (forall v, dict_lookup "source" d = Some v -> truthy v = false ->
             LegalFactCheck.source fc = "Unknown") /\
  (truthy (match dict_lookup "sentence" d with
           | Some v => v
           | None => PStr ""
           end) = false ->
   LegalFactCheck.sentence fc = LegalFactCheck.claim fc).
Proof.
  unfold fact_check_of_item, LegalFactCheck.make, get1, get.
  cbn [bind]. intros H.
  do 11 bind_inv H.
  inversion H; subst; clear H; cbn.
  split.
  - intros v Hv Ht. rewrite Hv in E5. unfold or_ in E5. rewrite Ht in E5.
    cbn in E5. congruence.
  - intros Ht. rewrite Ht in E0. inversion E0; subst a0. congruence.
Qed.

Lemma X21_empty_source_witness :
  exists fc,
    fact_check_of_item Scenario.judge_in_order
      (PDict [("claim", PStr "IPC enacted in 1860"); ("source", PStr "")])
    = Ok fc /\
    LegalFactCheck.source fc = "Unknown" /\
    LegalFactCheck.sentence fc = LegalFactCheck.claim fc.
Proof.
  eexists; split; [reflexivity|].
  pose proof (X21_empty_source_and_sentence_are_replaced
                Scenario.judge_in_order
                [("claim", PStr "IPC enacted in 1860"); ("source", PStr "")]
                _ eq_refl) as [H1 H2].
  split; [apply (H1 (PStr "")); reflexivity | apply H2; reflexivity].
Defined.

(** X22.  The defaults stand in for absent keys only: an entry that gives
    [null] for its verdict, its source type or its authority level is
    refused. *)
Theorem X22_null_fields_are_refused
    (w : World) (d : list (string * pyval)) :
  dict_lookup "verdict" d = Some PNone \/
  dict_lookup "source_type" d = Some PNone \/
  dict_lookup "legal_authority_level" d = Some PNone ->
  exists e, fact_check_of_item w (PDict d) = Raise e.
Proof.
  intros H.
  destruct (fact_check_of_item w (PDict d)) as [fc|e] eqn:E; [|eauto].
  exfalso. revert E.
  unfold fact_check_of_item, LegalFactCheck.make, get1, get.
  cbn [bind]. intros E. do 11 bind_inv E.
  destruct H as [H|[H|H]]; rewrite H in *; cbn in *; discriminate.
Qed.

Lemma X22_null_fields_witness :
  exists e,
    fact_check_of_item Scenario.judge_in_order
      (PDict [("sentence_id", PInt 1); ("source_type", PNone)]) = Raise e.
Proof.
  apply (X22_null_fields_are_refused Scenario.judge_in_order
           [("sentence_id", PInt 1); ("source_type", PNone)]).
  right; left; reflexivity.
Defined.

(** X23.  Every report of a run carries the identifier of the blog and the
    reading of the clock, and it has one of two shapes: no recommendation
    (it was read from the judge's answer), or the single recommendation
    ["Analysis failed."] with no verdict, no verified claim, accuracy 0.0,
    an empty breakdown and both totals equal to the number of extracted
    claims. *)
Theorem X23_reports_have_two_shapes
    (w : World) (self : LegalFactCheckService.t) (content blog_id : string)
    (r : LegalVerificationReport.t) :
  verify_legal_blog w self content blog_id = Ok r ->
  LegalVerificationReport.blog_id r = blog_id /\
  LegalVerificationReport.timestamp r = utcnow w /\
  (LegalVerificationReport.recommendations r = []
   \/ (LegalVerificationReport.recommendations r = ["Analysis failed."] /\
       LegalVerificationReport.fact_checks r = [] /\
       LegalVerificationReport.verified_claims r = 0 /\
       LegalVerificationReport.accuracy_score r = 0%float /\
       LegalVerificationReport.claims_breakdown r = [] /\
       LegalVerificationReport.total_claims_extracted r
       = len (LegalClaimExtractor.extract_claims w content) /\
       LegalVerificationReport.verifiable_claims r
       = len (LegalClaimExtractor.extract_claims w content))).
Proof.
  intros H; apply verify_legal_blog_cases in H.
  destruct H as [->|[payload [answer [_ [_ Hr]]]]].
  - cbn. repeat split. right. repeat split.
  - destruct answer; try discriminate Hr.
    apply report_of_answer_fields in Hr; cbv zeta in Hr.
    destruct Hr as [_ [_ [_ [_ [_ [Hrec [Hb Ht]]]]]]].
    repeat split; try assumption. now left.
Qed.

Lemma X23_reports_witness :
  exists r,
    verify_legal_blog Scenario.five_claims_judge_down Scenario.service_full
      "text" "blog-7" = Ok r /\
    LegalVerificationReport.blog_id r = "blog-7" /\
    LegalVerificationReport.timestamp r
    = utcnow Scenario.five_claims_judge_down.
Proof.
  eexists; split; [reflexivity|].
  pose proof (X23_reports_have_two_shapes Scenario.five_claims_judge_down
                Scenario.service_full "text" "blog-7" _ eq_refl)
    as [H1 [H2 _]].
  split; assumption.
Defined.

(** *** Events *)


(** X24.  Inside the client block, every routed field of a bundle is what
    the source's endpoint answers to one request carrying the claim's
    search query, with the source's own parameters: four results asked of
    the web search, English asked of the fact-check search, page 0 and a
    token header for the legal database, two results asked of the academic
    index.  A failed request, or an answer that is no JSON object, leaves
    the field empty. *)
Theorem X24_fields_are_the_answers_to_the_claims_query
    (w : World) (self : LegalFactCheckService.t) (claim : LegalClaim.t) :
  let q := LegalClaim.search_query claim in
  let ty := lower (LegalClaim.claim_type claim) in
  exists ev,
    snd (_gather_evidence_for_claim w (enter_clients self) claim) = Ok ev /\
    VerificationEvidence.news_results ev
    = absorbed
        (res <- http_get w
                  (Clients.base_url (Clients.cs_base (news_client self)))
                  [("q", PStr q);
                   ("key",
                    PStr (Clients.api_key (Clients.cs_base (news_client self))));
                   ("cx", PStr (Clients.cse_id (news_client self)));
                   ("num", PInt 4); ("lr", PStr "lang_en")]
                  [] ;;
         get res "items" (PList [])) /\
    (str_in ty ["date_fact"; "general_fact"; "legal_fact"] = true ->
     VerificationEvidence.google_fact_checks ev
     = absorbed
         (res <- http_get w
                   (Clients.base_url (fact_check_client self)
                    ++ "/claims:search")
                   [("query", PStr q);
                    ("key", PStr (Clients.api_key (fact_check_client self)));
                    ("languageCode", PStr "en")]
                   [] ;;
          get res "claims" (PList []))) /\
    (str_in ty ["case_law"; "statute"; "legal_fact"] = true ->
     q <> "" ->
     VerificationEvidence.indian_kanoon_results ev
     = absorbed
         (res <- http_get w
                   (Clients.base_url (indian_kanoon_client self) ++ "/search/")
                   [("formInput", PStr q); ("pagenum", PInt 0)]
                   [("Authorization",
                     "Token " ++ Clients.api_key (indian_kanoon_client self));
                    ("Accept", "application/json")] ;;
          get res "docs" (PList []))) /\
    (str_in ty ["case_law"; "statute"] = true ->
     forall c, academic_client self = Some c ->
     VerificationEvidence.academic_results ev
     = absorbed
         (res <- http_get w (Clients.base_url c ++ "/paper/search")
                   [("query", PStr q); ("limit", PInt 2)]
                   [("x-api-key", Clients.api_key c)] ;;
          get res "data" (PList []))).
Proof.
  cbv zeta.
  set (svc := enter_clients self).
  assert (N : snd (fetch_news w svc claim)
              = Ok (absorbed
                      (res <- http_get w
                                (Clients.base_url
                                   (Clients.cs_base (news_client self)))
                                [("q", PStr (LegalClaim.search_query claim));
                                 ("key",
                                  PStr (Clients.api_key
                                          (Clients.cs_base (news_client self))));
                                 ("cx", PStr (Clients.cse_id (news_client self)));
                                 ("num", PInt 4); ("lr", PStr "lang_en")]
                                [] ;;
                       get res "items" (PList [])))).
  { unfold fetch_news; rewrite guarded_result; reflexivity. }
  assert (F : snd (fetch_fact w svc claim)
              = Ok (absorbed
                      (res <- http_get w
                                (Clients.base_url (fact_check_client self)
                                 ++ "/claims:search")
                                [("query",
                                  PStr (LegalClaim.search_query claim));
                                 ("key",
                                  PStr (Clients.api_key
                                          (fact_check_client self)));
                                 ("languageCode", PStr "en")]
                                [] ;;
                       get res "claims" (PList [])))).
  { unfold fetch_fact; rewrite guarded_result; reflexivity. }
  assert (K : LegalClaim.search_query claim <> "" ->
              snd (fetch_kanoon w svc claim)
              = Ok (absorbed
                      (res <- http_get w
                                (Clients.base_url (indian_kanoon_client self)
                                 ++ "/search/")
                                [("formInput",
                                  PStr (LegalClaim.search_query claim));
                                 ("pagenum", PInt 0)]
                                [("Authorization",
                                  "Token "
                                  ++ Clients.api_key
                                       (indian_kanoon_client self));
                                 ("Accept", "application/json")] ;;
                       get res "docs" (PList [])))).
  { intros Hq. unfold fetch_kanoon; rewrite guarded_result.
    unfold Clients.IndianKanoonClient_search, str_empty.
    destruct (String.eqb_spec (LegalClaim.search_query claim) "");
      [contradiction | reflexivity]. }
  assert (A : forall c, academic_client self = Some c ->
              snd (fetch_academic w svc claim)
              = Ok (absorbed
                      (res <- http_get w
                                (Clients.base_url c ++ "/paper/search")
                                [("query",
                                  PStr (LegalClaim.search_query claim));
                                 ("limit", PInt 2)]
                                [("x-api-key", Clients.api_key c)] ;;
                       get res "data" (PList [])))).
  { intros c Hc. unfold fetch_academic, svc, enter_clients.
    cbn [academic_client]. rewrite Hc. cbn [option_map].
    rewrite guarded_result; reflexivity. }
  destruct (fetch_kanoon_returns w svc claim) as [k Hk].
  destruct (fetch_academic_returns w svc claim) as [a Ha].
  unfold _gather_evidence_for_claim, routing_tasks, asyncio_gather.
  cbn [app map snd fst mapM].
  rewrite N.
  destruct (str_in _ ["case_law"; "statute"; "legal_fact"]);
  destruct (str_in _ ["date_fact"; "general_fact"; "legal_fact"]);
  destruct (str_in _ ["case_law"; "statute"]);
  rewrite ?Hk, ?F, ?Ha; cbn;
  (eexists; split; [reflexivity|]; split; [reflexivity|];
   split; [intros H; first [discriminate H | reflexivity]|];
   split; [intros H Hq; first [discriminate H
                              | rewrite (K Hq) in Hk; now injection Hk as <-]
          |intros H c Hc; first [discriminate H
                                | rewrite (A c Hc) in Ha;
                                  now injection Ha as <-]]).
Qed.

(** X25.  No source is queried twice for a claim, at least one and at most
    three of the four sources are queried. *)
Theorem X25_between_one_and_three_sources
    (w : World) (self : LegalFactCheckService.t) (claim : LegalClaim.t) :
  NoDup (sources_queried w self claim) /\
  (1 <= length (sources_queried w self claim) <= 3)%nat.
Proof.
  rewrite sources_queried_unfold; cbv zeta.
  rewrite routing_conditions_table.
  unfold spec_route, reachable.
  repeat match goal with
  | |- context [String.eqb ?a ?b] => destruct (String.eqb a b)
  end;
  destruct (academic_client self); cbn;
  (split; [repeat constructor; simpl; intuition discriminate | lia]).
Qed.

(** X26.  The gathering stage hands back exactly one bundle per claim, in
    the order of the claims, each under the identifier of its claim. *)
Theorem X26_one_bundle_per_claim_in_order
    (w : World) (self : LegalFactCheckService.t) (claims : list LegalClaim.t) :
  exists evs,
    snd (gather_all w self claims) = Ok evs /\
    length evs = length claims /\
    Forall2
      (fun claim ev =>
         snd (_gather_evidence_for_claim w (enter_clients self) claim) = Ok ev
         /\ VerificationEvidence.claim_id ev = LegalClaim.sentence_id claim)
      claims evs.
Proof.
  unfold gather_all, asyncio_gather; cbn [snd].
  induction claims as [|c cs [evs [H1 [H2 H3]]]]; cbn [map mapM].
  - exists []; repeat split; constructor.
  - destruct (gather_returns w (enter_clients self) c) as [ev [Hev Hid]].
    rewrite Hev, H1; cbn [bind].
    exists (ev :: evs); repeat split.
    + simpl; now rewrite H2.
    + constructor; [split; assumption | assumption].
Qed.



(* ===================================================================== *)
(** ** Further properties: run_fact.py                                    *)
(* ===================================================================== *)

Lemma init_with_required_keys
    (google_api_key cse_id gemini_api_key indian_kanoon_key llm_model : string)
    (academic_key : option string) :
  google_api_key <> "" -> cse_id <> "" -> gemini_api_key <> "" ->
  indian_kanoon_key <> "" ->
  exists svc,
    LegalFactCheckService.init google_api_key cse_id gemini_api_key
      indian_kanoon_key academic_key llm_model = Ok svc.
Proof.
  intros Hg Hc Hm Hk.
  unfold LegalFactCheckService.init, Clients.GoogleFactCheckClient,
    Clients.GoogleCustomSearchClient, Clients.IndianKanoonClient,
    Clients.SemanticScholarClient, Clients.init, str_empty.
  destruct (String.eqb_spec google_api_key ""); [contradiction|].
  destruct (String.eqb_spec cse_id ""); [contradiction|].
  destruct (String.eqb_spec gemini_api_key ""); [contradiction|].
  destruct (String.eqb_spec indian_kanoon_key ""); [contradiction|].
  cbn.
  destruct academic_key as [a|]; [|cbn; eauto].
  destruct (String.eqb_spec a ""); cbn; eauto.
Qed.

(** X28.  The script verifies its sample text exactly when the four keys
    are set and non-empty in the environment.  It then runs a service built
    without academic key, under the blog identifier ["test_blog_001"]. *)
Theorem X28_script_runs_iff_four_keys_are_set
    (getenv : string -> option string) (w : World) (blog_content : string) :
  let set name :=
    exists s, getenv name = Some s /\ s <> "" in
  (RunFact.main getenv w blog_content <> None
   <-> (set "GOOGLE_API_KEY" /\ set "GOOGLE_CSE_ID" /\
        set "GEMINI_API_KEY" /\ set "INDIANKANOON_API_KEY"))
  /\ (forall res,
        RunFact.main getenv w blog_content = Some res ->
        exists svc,
          academic_client svc = None /\
          res = verify_legal_blog w svc blog_content "test_blog_001").
Proof.
  cbv zeta. unfold RunFact.main, str_empty.
  destruct (getenv "GOOGLE_API_KEY") as [g|]; cbn [forallb negb andb];
    [destruct (String.eqb_spec g "") as [->|Hg]; cbn [negb andb]|];
    try (split; [split; [intros H; now elim H
                        | intros [[s [H1 H2]] _]; congruence]
                | intros res H; discriminate H]).
  destruct (getenv "GOOGLE_CSE_ID") as [c|]; cbn [forallb negb andb];
    [destruct (String.eqb_spec c "") as [->|Hc]; cbn [negb andb]|];
    try (split; [split; [intros H; now elim H
                        | intros [_ [[s [H1 H2]] _]]; congruence]
                | intros res H; discriminate H]).
  destruct (getenv "GEMINI_API_KEY") as [m|]; cbn [forallb negb andb];
    [destruct (String.eqb_spec m "") as [->|Hm]; cbn [negb andb]|];
    try (split; [split; [intros H; now elim H
                        | intros [_ [_ [[s [H1 H2]] _]]]; congruence]
                | intros res H; discriminate H]).
  destruct (getenv "INDIANKANOON_API_KEY") as [k|]; cbn [forallb negb andb];
    [destruct (String.eqb_spec k "") as [->|Hk]; cbn [negb andb]|];
    try (split; [split; [intros H; now elim H
                        | intros [_ [_ [_ [s [H1 H2]]]]]; congruence]
                | intros res H; discriminate H]).
  destruct (init_with_required_keys g c m k "gemini-2.5-flash-lite" None
              Hg Hc Hm Hk) as [svc Hsvc].
  rewrite Hsvc. split.
  - split; [intros _; repeat split; eauto | discriminate].
  - intros res H; inversion H; subst.
    exists svc; split; [|reflexivity].
    now apply init_without_academic_key in Hsvc.
Qed.

(* ===================================================================== *)
(** ** Further properties: concrete instances                             *)
(* ===================================================================== *)

Lemma X1_init_witness :
  exists svc,
    LegalFactCheckService.init "g-key" "cse" "gemini-key" "ik-key"
      (Some "") "gemini-2.5-flash-lite" = Ok svc.
Proof.
  apply (proj2 (X1_init_succeeds_iff_required_keys "g-key" "cse" "gemini-key"
                  "ik-key" "gemini-2.5-flash-lite" (Some ""))).
  repeat split; discriminate.
Defined.

Lemma X3_client_construction_witness :
  exists c, Clients.init "ik-key" "https://api.indiankanoon.org" = Ok c.
Proof.
  apply (proj2 (X3_client_construction_checks "ik-key"
                  "https://api.indiankanoon.org")).
  split; [discriminate | reflexivity].
Defined.

Lemma X5_empty_query_witness :
  Clients.IndianKanoonClient_search
    (Scenario.world Scenario.one_hit Scenario.silent Scenario.silent)
    (indian_kanoon_client (enter_clients Scenario.service_full)) "" 0
  = Raise (ValueError "Search query cannot be empty.")
  /\ exists ev,
       snd (_gather_evidence_for_claim
              (Scenario.world Scenario.one_hit Scenario.silent Scenario.silent)
              (enter_clients Scenario.service_full)
              (with_claim_type
                 {| LegalClaim.sentence_id := 1;
                    LegalClaim.sentence_text := "Article 21 protects life.";
                    LegalClaim.claim_type := "statute";
                    LegalClaim.search_query := "";
                    LegalClaim.requires_verification := true;
                    LegalClaim.confidence := 1%float;
                    LegalClaim.location := "id_1" |} "statute")) = Ok ev /\
       VerificationEvidence.indian_kanoon_results ev = PList [].
Proof.
  apply (X5_empty_query_gets_no_legal_evidence
           (Scenario.world Scenario.one_hit Scenario.silent Scenario.silent)
           (enter_clients Scenario.service_full)
           (with_claim_type
              {| LegalClaim.sentence_id := 1;
                 LegalClaim.sentence_text := "Article 21 protects life.";
                 LegalClaim.claim_type := "statute";
                 LegalClaim.search_query := "";
                 LegalClaim.requires_verification := true;
                 LegalClaim.confidence := 1%float;
                 LegalClaim.location := "id_1" |} "statute")).
  reflexivity.
Defined.

Lemma X16_pipeline_raises_witness :
  exists evs,
    snd (gather_all
           (Scenario.world Scenario.null_results
              (Scenario.extraction_of [Scenario.claim_item 1 "general_fact"])
              Scenario.silent)
           Scenario.service_full
           (LegalClaimExtractor.extract_claims
              (Scenario.world Scenario.null_results
                 (Scenario.extraction_of
                    [Scenario.claim_item 1 "general_fact"])
                 Scenario.silent) "text")) = Ok evs /\
    context_data
      (Scenario.world Scenario.null_results
         (Scenario.extraction_of [Scenario.claim_item 1 "general_fact"])
         Scenario.silent)
      (LegalClaimExtractor.extract_claims
         (Scenario.world Scenario.null_results
            (Scenario.extraction_of [Scenario.claim_item 1 "general_fact"])
            Scenario.silent) "text")
      evs
    = Raise TypeError.
Proof.
  destruct (X16_pipeline_raises_only_from_the_payload
              (Scenario.world Scenario.null_results
                 (Scenario.extraction_of
                    [Scenario.claim_item 1 "general_fact"])
                 Scenario.silent)
              Scenario.service_full "text" "blog") as [evs [Hg H]].
  exists evs; split; [exact Hg|].
  apply (proj1 (H TypeError)). reflexivity.
Defined.

Lemma X24_requests_witness :
  exists ev,
    snd (_gather_evidence_for_claim
           (Scenario.world Scenario.one_hit Scenario.silent Scenario.silent)
           (enter_clients Scenario.service_full)
           (Scenario.claim_of 1 "legal_fact")) = Ok ev /\
    VerificationEvidence.news_results ev
    = PList [PDict [("title", PStr "State v. X")]] /\
    VerificationEvidence.indian_kanoon_results ev
    = PList [PDict [("title", PStr "State v. X")]].
Proof.
  destruct (X24_fields_are_the_answers_to_the_claims_query
              (Scenario.world Scenario.one_hit Scenario.silent Scenario.silent)
              Scenario.service_full (Scenario.claim_of 1 "legal_fact"))
    as [ev [H [Hn [_ [Hk _]]]]].
  exists ev; split; [exact H|]. split.
  - rewrite Hn. reflexivity.
  - rewrite (Hk eq_refl); [reflexivity | discriminate].
Defined.

Lemma X28_script_witness :
  exists svc,
    academic_client svc = None /\
    RunFact.main Scenario.full_env Scenario.judge_in_order "text"
    = Some (verify_legal_blog Scenario.judge_in_order svc "text"
              "test_blog_001").
Proof.
  destruct (proj2 (X28_script_runs_iff_four_keys_are_set Scenario.full_env
                     Scenario.judge_in_order "text") _ eq_refl)
    as [svc [H1 H2]].
  exists svc; split; [exact H1|]. rewrite <- H2. reflexivity.
Defined.
